(** * CityBike analytics: cleaning pipeline, statistics, pricing, queries

    A shallow embedding of [pricing.py], [numerical.py] and the
    [BikeShareSystem] class of [analyzer.py].

    - [pricing.py] and [numerical.py] compute on Python floats and NumPy
      float64 arrays; they are embedded on binary64 primitive floats.
    - A pandas table is a list of rows, a row a record of dynamically typed
      cells.  The float64 cells of a table are carried as exact rationals;
      NaN, None and NaT are one missing marker.
    - What pandas does is embedded operation by operation, with the
      semantics the library documents; its parsers, printers and datetime
      accessors are fields of the classes [Pandas] and [Accessors], and
      [sort_values] is taken to keep rows with equal keys in order.
    - The methods of [BikeShareSystem] run in a state and error monad over
      the three stored tables; the CSV files [clean_data] writes are not
      part of the state. *)

From Stdlib Require Import ZArith QArith Qminmax Qround List String Ascii Bool.
From Stdlib Require Import Lia Lqa Permutation Sorted Uint63 Floats.
Import ListNotations.

Set Warnings "-inexact-float".

(** ** pricing.py *)

Module CasualPricing.
Local Open Scope float_scope.
Definition UNLOCK_FEE : float := 1.00.
Definition PER_MINUTE : float := 0.15.
Definition PER_KM : float := 0.10.
Definition calculate_cost (duration_minutes distance_km : float) : float :=
  UNLOCK_FEE + PER_MINUTE * duration_minutes + PER_KM * distance_km.
End CasualPricing.

Module MemberPricing.
Local Open Scope float_scope.
Definition PER_MINUTE : float := 0.08.
Definition PER_KM : float := 0.05.
Definition calculate_cost (duration_minutes distance_km : float) : float :=
  PER_MINUTE * duration_minutes + PER_KM * distance_km.
End MemberPricing.

Module PeakHourPricing.
Local Open Scope float_scope.
Definition MULTIPLIER : float := 1.5.
(** [self._base = CasualPricing()] *)
Definition _base := CasualPricing.calculate_cost.
Definition calculate_cost (duration_minutes distance_km : float) : float :=
  MULTIPLIER * _base duration_minutes distance_km.
End PeakHourPricing.

(** ** numerical.py *)

Module numerical.
Local Open Scope float_scope.

(** [len(v)] as a float64. *)
Definition float_of_nat (n : nat) : float :=
  PrimFloat.of_uint63 (Uint63.of_Z (Z.of_nat n)).

(** [np.sum]: the accumulation loop NumPy runs on arrays of fewer than
    eight elements (longer arrays are summed pairwise). *)
Definition np_sum (v : list float) : float := fold_left PrimFloat.add v 0.

(** [np.mean(v)]: sum divided by the length; NaN on the empty array. *)
Definition np_mean (v : list float) : float :=
  np_sum v / float_of_nat (List.length v).

(** [np.std(v)], population standard deviation:
    [sqrt(sum((v - mean) * (v - mean)) / len(v))]. *)
Definition np_std (v : list float) : float :=
  let arrmean := np_mean v in
  let x := map (fun a => a - arrmean) v in
  let x := map (fun a => a * a) x in
  PrimFloat.sqrt (np_sum x / float_of_nat (List.length v)).

Definition detect_outliers_zscore (values : list float) (threshold : float)
  : list bool :=
  let v := values in
  let mean := np_mean v in
  let std := np_std v in
  if std =? 0 then map (fun _ => false) v
  else
    let z := map (fun x => (x - mean) / std) v in
    map (fun zi => threshold <=? PrimFloat.abs zi) z.


Definition calculate_fares (durations distances : list float)
           (per_minute per_km unlock_fee : float) : list float :=
  map (fun dd => unlock_fee + per_minute * fst dd + per_km * snd dd)
      (combine durations distances).
End numerical.

(** ** Cells, errors and strings *)

(** One cell of a pandas table.  [NA] is the missing marker NaN, with
    which None and NaT are identified (they differ from it only in how
    [astype(str)] prints them); [Num] is a float64 value, [Int] an int64
    (or nullable Int64) value and [Time] a [datetime64[ns]] timestamp in
    nanoseconds since the epoch. *)
Inductive cell : Type :=
| NA
| Str (s : string)
| Int (z : Z)
| Num (x : Q)
| Time (t : Z).

Inductive error : Type :=
| RuntimeError (msg : string)
| TypeError
| ValueError
| AttributeError
| ZeroDivisionError.

Inductive result (A : Type) : Type :=
| OK (a : A)
| Raise (e : error).
Arguments OK {A} a.
Arguments Raise {A} e.

Definition bind {A B} (m : result A) (f : A -> result B) : result B :=
  match m with
  | OK a => f a
  | Raise e => Raise e
  end.

Fixpoint mapM {A B} (f : A -> result B) (l : list A) : result (list B) :=
  match l with
  | [] => OK []
  | x :: r => bind (f x) (fun y => bind (mapM f r) (fun ys => OK (y :: ys)))
  end.

Definition isna (c : cell) : bool :=
  match c with NA => true | _ => false end.

(** The value of a numeric cell. *)
Definition number (c : cell) : option Q :=
  match c with
  | Int z => Some (inject_Z z)
  | Num x => Some x
  | _ => None
  end.

(** Equality of cells as hashing and [==] see it: [1 == 1.0], text and
    timestamps by value, and two missing cells count as duplicates of each
    other in [drop_duplicates]. *)
Definition cell_eqb (a b : cell) : bool :=
  match a, b with
  | NA, NA => true
  | Str s, Str s' => String.eqb s s'
  | Time t, Time t' => Z.eqb t t'
  | _, _ =>
      match number a, number b with
      | Some x, Some y => Qeq_bool x y
      | _, _ => false
      end
  end.

(** No two cells of the list are equal. *)
Fixpoint unique_keys (l : list cell) : Prop :=
  match l with
  | [] => True
  | k :: r => (forall k', In k' r -> cell_eqb k k' = false) /\ unique_keys r
  end.

(** How often a value occurs in a column. *)
Definition occurrences (k : cell) (col : list cell) : nat :=
  List.length (filter (cell_eqb k) col).

(** [str.lower] and [str.strip] on the ASCII range. *)
Definition lower_char (c : ascii) : ascii :=
  let n := nat_of_ascii c in
  if (65 <=? n)%nat && (n <=? 90)%nat then ascii_of_nat (n + 32) else c.

Fixpoint lower (s : string) : string :=
  match s with
  | EmptyString => EmptyString
  | String c r => String (lower_char c) (lower r)
  end.

Definition is_space (c : ascii) : bool :=
  let n := nat_of_ascii c in
  ((9 <=? n)%nat && (n <=? 13)%nat) || ((28 <=? n)%nat && (n <=? 32)%nat).

Fixpoint lstrip (s : string) : string :=
  match s with
  | EmptyString => EmptyString
  | String c r => if is_space c then lstrip r else s
  end.

Fixpoint rstrip (s : string) : string :=
  match s with
  | EmptyString => EmptyString
  | String c r =>
      match rstrip r with
      | EmptyString => if is_space c then EmptyString else String c EmptyString
      | r' => String c r'
      end
  end.

Definition strip (s : string) : string := rstrip (lstrip s).

(** ** The pandas operations used by [clean_data] *)

(** What the library does on cells whose reading depends on its parsers and
    printers: [pd.to_datetime] and [pd.to_numeric] (both with
    [errors="coerce"]) on a cell that is not yet of the target type, and
    [astype(str)] on a cell that is not text. *)
Class Pandas : Type := {
  parse_datetime : cell -> option Z;
  parse_numeric : cell -> option Q;
  str_of : cell -> string
}.

Section Cleaning.
Context {pd : Pandas}.

(** [pd.to_datetime(col, errors="coerce")], cell by cell. *)
Definition to_datetime (c : cell) : cell :=
  match c with
  | Time t => Time t
  | NA => NA
  | _ => match parse_datetime c with Some t => Time t | None => NA end
  end.

(** [pd.to_numeric(col, errors="coerce")], cell by cell. *)
Definition to_numeric (c : cell) : cell :=
  match c with
  | Num x => Num x
  | Int z => Num (inject_Z z)
  | NA => NA
  | _ => match parse_numeric c with Some x => Num x | None => NA end
  end.

(** [col.astype(str)]: a missing cell prints as ["nan"]. *)
Definition astype_str (c : cell) : string :=
  match c with
  | Str s => s
  | NA => "nan"%string
  | _ => str_of c
  end.

(** [col.astype(str).str.lower().str.strip()] *)
Definition normalize_text (c : cell) : cell :=
  Str (strip (lower (astype_str c))).

(** [astype("Int64")] on the float64 column [to_numeric] returns: raises
    [TypeError] on a value that is not integral. *)
Definition astype_Int64 (c : cell) : result cell :=
  match c with
  | NA => OK NA
  | Int z => OK (Int z)
  | Num x =>
      if Qeq_bool (inject_Z (Qfloor x)) x then OK (Int (Qfloor x))
      else Raise TypeError
  | _ => Raise TypeError
  end.

(** [col.isin(values)] for a list of strings. *)
Definition isin (c : cell) (values : list string) : bool :=
  match c with
  | Str s => existsb (String.eqb s) values
  | _ => false
  end.

(** [df.drop_duplicates(subset=[key])], first occurrence kept. *)
Fixpoint drop_duplicates_from {R} (key : R -> cell) (seen : list cell)
         (df : list R) : list R :=
  match df with
  | [] => []
  | r :: rest =>
      if existsb (cell_eqb (key r)) seen
      then drop_duplicates_from key seen rest
      else r :: drop_duplicates_from key (key r :: seen) rest
  end.

Definition drop_duplicates {R} (key : R -> cell) (df : list R) : list R :=
  drop_duplicates_from key [] df.

(** The float values of a column, missing cells skipped. *)
Fixpoint numbers (col : list cell) : list Q :=
  match col with
  | [] => []
  | c :: rest =>
      match number c with
      | Some x => x :: numbers rest
      | None => numbers rest
      end
  end.

Fixpoint insert_sorted (x : Q) (l : list Q) : list Q :=
  match l with
  | [] => [x]
  | y :: r => if Qle_bool x y then x :: l else y :: insert_sorted x r
  end.

Definition sort_numbers (l : list Q) : list Q :=
  fold_right insert_sorted [] l.

(** [col.median()]: missing cells skipped, NaN ([None]) when nothing is
    left, the mean of the two middle values on an even count. *)
Definition median (col : list cell) : option Q :=
  let s := sort_numbers (numbers col) in
  let n := List.length s in
  match n with
  | O => None
  | _ =>
      if Nat.even n
      then Some ((nth (n / 2 - 1) s 0 + nth (n / 2) s 0) / 2)
      else Some (nth (n / 2) s 0)
  end.

(** [col.fillna(v)] with a float [v]; filling with NaN changes nothing. *)
Definition fillna (v : option Q) (c : cell) : cell :=
  match c, v with
  | NA, Some x => Num x
  | _, _ => c
  end.

(** [col.fillna(v)] with a text value. *)
Definition fillna_text (v : string) (c : cell) : cell :=
  match c with
  | NA => Str v
  | _ => c
  end.

(** The text values of a column, missing cells skipped. *)
Fixpoint texts (col : list cell) : list string :=
  match col with
  | [] => []
  | Str s :: rest => s :: texts rest
  | _ :: rest => texts rest
  end.

Definition count_text (s : string) (l : list string) : nat :=
  List.length (filter (String.eqb s) l).

Definition max_count (l : list string) : nat :=
  fold_right (fun s m => Nat.max (count_text s l) m) O l.

Fixpoint min_text (s : string) (l : list string) : string :=
  match l with
  | [] => s
  | s' :: r => min_text (if String.ltb s' s then s' else s) r
  end.

(** [col.mode(dropna=True)]: the most frequent values in ascending order;
    only its first entry is used, so [mode_first] returns that one. *)
Definition mode_first (col : list cell) : option string :=
  let l := texts col in
  match filter (fun s => Nat.eqb (count_text s l) (max_count l)) l with
  | [] => None
  | s :: r => Some (min_text s r)
  end.

(** Comparisons of a column with a number: false on a missing cell. *)
Definition ge0 (c : cell) : bool :=
  match number c with Some x => Qle_bool 0 x | None => false end.

Definition gt0 (c : cell) : bool :=
  match number c with Some x => negb (Qle_bool x 0) | None => false end.

(** [col.between(lo, hi)], both ends included. *)
Definition between (lo hi : Q) (c : cell) : bool :=
  match number c with
  | Some x => Qle_bool lo x && Qle_bool x hi
  | None => false
  end.

(** [end >= start] on two timestamp columns: false when either is NaT. *)
Definition time_ge (e s : cell) : bool :=
  match e, s with
  | Time te, Time ts => (ts <=? te)%Z
  | _, _ => false
  end.

(** [(end - start).dt.total_seconds() / 60.0] *)
Definition total_seconds (ns : Z) : Q := inject_Z ns / 1000000000.

Definition minutes_between (e s : cell) : cell :=
  match e, s with
  | Time te, Time ts => Num (total_seconds (te - ts) / 60)
  | _, _ => NA
  end.

(** [col.clip(lower=0)] *)
Definition clip_lower0 (c : cell) : cell :=
  match c with
  | Num x => if Qle_bool 0 x then Num x else Num 0
  | Int z => if (0 <=? z)%Z then Int z else Int 0
  | _ => c
  end.

End Cleaning.

(** ** The three tables *)

Module Trip.
Record t : Type := mk {
  trip_id : cell;
  user_id : cell;
  user_type : cell;
  bike_id : cell;
  bike_type : cell;
  start_station_id : cell;
  end_station_id : cell;
  start_time : cell;
  end_time : cell;
  duration_minutes : cell;
  distance_km : cell;
  status : cell
}.

Definition set_user_type (v : cell) (r : t) : t :=
  mk (trip_id r) (user_id r) v (bike_id r) (bike_type r)
     (start_station_id r) (end_station_id r) (start_time r) (end_time r)
     (duration_minutes r) (distance_km r) (status r).
Definition set_bike_type (v : cell) (r : t) : t :=
  mk (trip_id r) (user_id r) (user_type r) (bike_id r) v
     (start_station_id r) (end_station_id r) (start_time r) (end_time r)
     (duration_minutes r) (distance_km r) (status r).
Definition set_start_time (v : cell) (r : t) : t :=
  mk (trip_id r) (user_id r) (user_type r) (bike_id r) (bike_type r)
     (start_station_id r) (end_station_id r) v (end_time r)
     (duration_minutes r) (distance_km r) (status r).
Definition set_end_time (v : cell) (r : t) : t :=
  mk (trip_id r) (user_id r) (user_type r) (bike_id r) (bike_type r)
     (start_station_id r) (end_station_id r) (start_time r) v
     (duration_minutes r) (distance_km r) (status r).
Definition set_duration_minutes (v : cell) (r : t) : t :=
  mk (trip_id r) (user_id r) (user_type r) (bike_id r) (bike_type r)
     (start_station_id r) (end_station_id r) (start_time r) (end_time r)
     v (distance_km r) (status r).
Definition set_distance_km (v : cell) (r : t) : t :=
  mk (trip_id r) (user_id r) (user_type r) (bike_id r) (bike_type r)
     (start_station_id r) (end_station_id r) (start_time r) (end_time r)
     (duration_minutes r) v (status r).
Definition set_status (v : cell) (r : t) : t :=
  mk (trip_id r) (user_id r) (user_type r) (bike_id r) (bike_type r)
     (start_station_id r) (end_station_id r) (start_time r) (end_time r)
     (duration_minutes r) (distance_km r) v.
End Trip.

Module Station.
Record t : Type := mk {
  station_id : cell;
  station_name : cell;
  capacity : cell;
  latitude : cell;
  longitude : cell
}.

Definition set_capacity (v : cell) (r : t) : t :=
  mk (station_id r) (station_name r) v (latitude r) (longitude r).
Definition set_latitude (v : cell) (r : t) : t :=
  mk (station_id r) (station_name r) (capacity r) v (longitude r).
Definition set_longitude (v : cell) (r : t) : t :=
  mk (station_id r) (station_name r) (capacity r) (latitude r) v.
End Station.

Module Maintenance.
Record t : Type := mk {
  record_id : cell;
  bike_id : cell;
  bike_type : cell;
  date : cell;
  maintenance_type : cell;
  cost : cell;
  description : cell
}.

Definition set_bike_type (v : cell) (r : t) : t :=
  mk (record_id r) (bike_id r) v (date r) (maintenance_type r) (cost r)
     (description r).
Definition set_date (v : cell) (r : t) : t :=
  mk (record_id r) (bike_id r) (bike_type r) v (maintenance_type r) (cost r)
     (description r).
Definition set_maintenance_type (v : cell) (r : t) : t :=
  mk (record_id r) (bike_id r) (bike_type r) (date r) v (cost r)
     (description r).
Definition set_cost (v : cell) (r : t) : t :=
  mk (record_id r) (bike_id r) (bike_type r) (date r) (maintenance_type r) v
     (description r).
End Maintenance.

(** [df[col] = f(df[col])], cell by cell. *)
Definition assign {R} (get : R -> cell) (set : cell -> R -> R)
           (f : cell -> cell) (df : list R) : list R :=
  map (fun r => set (f (get r)) r) df.

(** [df.dropna(subset=cols)] *)
Definition dropna {R} (cols : list (R -> cell)) (df : list R) : list R :=
  filter (fun r => forallb (fun get => negb (isna (get r))) cols) df.

(** The shape of each of the three cleanings: deduplicate on the key,
    coerce every row, drop the rows that fail a check, finish every row. *)
Definition pipeline {R} (key : R -> cell) (f g : R -> R) (p : R -> bool)
           (raw : list R) : list R :=
  map g (filter p (map f (drop_duplicates key raw))).

Section CleanData.
Context {pd : Pandas}.

(** *** Trips (analyzer.py, lines 46-76) *)

Definition status_sentinels : list string :=
  ["nan"; "none"; ""]%string.

(** Line 58: the status cells that are missing-like text become NaN. *)
Definition mask_status (c : cell) : cell :=
  if isin c status_sentinels then NA else c.

(** Lines 59-60: the value missing statuses are filled with. *)
Definition fill_status (trips : list Trip.t) : string :=
  match mode_first (map Trip.status trips) with
  | Some s => s
  | None => "completed"%string
  end.

(** Lines 46-64: deduplication, coercion, normalisation and imputation. *)
Definition trips_imputed (trips : list Trip.t) : list Trip.t :=
  let trips := drop_duplicates Trip.trip_id trips in
  let trips := assign Trip.start_time Trip.set_start_time to_datetime trips in
  let trips := assign Trip.end_time Trip.set_end_time to_datetime trips in
  let trips :=
    assign Trip.duration_minutes Trip.set_duration_minutes to_numeric trips in
  let trips := assign Trip.distance_km Trip.set_distance_km to_numeric trips in
  let trips := assign Trip.user_type Trip.set_user_type normalize_text trips in
  let trips := assign Trip.bike_type Trip.set_bike_type normalize_text trips in
  let trips := assign Trip.status Trip.set_status normalize_text trips in
  let trips := assign Trip.status Trip.set_status mask_status trips in
  let trips :=
    assign Trip.status Trip.set_status (fillna_text (fill_status trips)) trips in
  let trips :=
    assign Trip.duration_minutes Trip.set_duration_minutes
           (fillna (median (map Trip.duration_minutes trips))) trips in
  let trips :=
    assign Trip.distance_km Trip.set_distance_km
           (fillna (median (map Trip.distance_km trips))) trips in
  trips.

(** Lines 66-73: the rows that fail a check are dropped. *)
Definition trips_valid (trips : list Trip.t) : list Trip.t :=
  let trips := dropna [Trip.start_time; Trip.end_time] trips in
  let trips :=
    filter (fun r => time_ge (Trip.end_time r) (Trip.start_time r)) trips in
  let trips := filter (fun r => ge0 (Trip.duration_minutes r)) trips in
  let trips := filter (fun r => ge0 (Trip.distance_km r)) trips in
  let trips :=
    filter (fun r => isin (Trip.user_type r) ["casual"; "member"]%string)
           trips in
  let trips :=
    filter (fun r => isin (Trip.bike_type r) ["classic"; "electric"]%string)
           trips in
  let trips :=
    filter (fun r => isin (Trip.status r) ["completed"; "cancelled"]%string)
           trips in
  trips.

(** Lines 75-76: the duration is recomputed from the timestamps. *)
Definition trips_recomputed (trips : list Trip.t) : list Trip.t :=
  let trips :=
    map (fun r =>
           Trip.set_duration_minutes
             (minutes_between (Trip.end_time r) (Trip.start_time r)) r)
        trips in
  let trips :=
    assign Trip.duration_minutes Trip.set_duration_minutes clip_lower0 trips in
  trips.

Definition clean_trips (trips : list Trip.t) : list Trip.t :=
  trips_recomputed (trips_valid (trips_imputed trips)).

(** *** Stations (lines 79-85) *)

Definition clean_stations (stations : list Station.t)
  : result (list Station.t) :=
  let stations := drop_duplicates Station.station_id stations in
  bind
    (mapM (fun r =>
             bind (astype_Int64 (to_numeric (Station.capacity r)))
                  (fun c => OK (Station.set_capacity c r)))
          stations)
    (fun stations =>
       let stations :=
         assign Station.latitude Station.set_latitude to_numeric stations in
       let stations :=
         assign Station.longitude Station.set_longitude to_numeric stations in
       let stations :=
         dropna [Station.station_id; Station.station_name; Station.capacity;
                 Station.latitude; Station.longitude] stations in
       let stations := filter (fun r => gt0 (Station.capacity r)) stations in
       let stations :=
         filter (fun r => between (-90) 90 (Station.latitude r)
                          && between (-180) 180 (Station.longitude r))
                stations in
       OK stations).

(** *** Maintenance (lines 88-98) *)

(** Lines 88-94: the table the medians are taken over. *)
Definition maint_valid (maint : list Maintenance.t) : list Maintenance.t :=
  let maint := drop_duplicates Maintenance.record_id maint in
  let maint := assign Maintenance.date Maintenance.set_date to_datetime maint in
  let maint := assign Maintenance.cost Maintenance.set_cost to_numeric maint in
  let maint :=
    assign Maintenance.bike_type Maintenance.set_bike_type normalize_text
           maint in
  let maint :=
    assign Maintenance.maintenance_type Maintenance.set_maintenance_type
           normalize_text maint in
  let maint :=
    dropna [Maintenance.record_id; Maintenance.bike_id; Maintenance.bike_type;
            Maintenance.date; Maintenance.maintenance_type] maint in
  let maint :=
    filter (fun r => isin (Maintenance.bike_type r)
                          ["classic"; "electric"]%string) maint in
  maint.

(** The costs of the rows of one bike type: the series [s] the lambda of
    line 97 receives for that group. *)
Definition group_costs (maint : list Maintenance.t) (bike_type : cell)
  : list cell :=
  map Maintenance.cost
      (filter (fun r => cell_eqb (Maintenance.bike_type r) bike_type) maint).

(** Lines 96-98. *)
Definition impute_cost (maint : list Maintenance.t) : list Maintenance.t :=
  let overall_med := median (map Maintenance.cost maint) in
  let maint :=
    map (fun r =>
           Maintenance.set_cost
             (fillna (median (group_costs maint (Maintenance.bike_type r)))
                     (Maintenance.cost r)) r)
        maint in
  let maint :=
    assign Maintenance.cost Maintenance.set_cost (fillna overall_med) maint in
  maint.

Definition clean_maintenance (maint : list Maintenance.t)
  : list Maintenance.t :=
  impute_cost (maint_valid maint).

(** *** The pipeline, row by row

    What the column-wise statements above do to one row: used to state
    and prove the properties of the cleaned tables. *)

Definition impute_trip (fill : string) (med_duration med_distance : option Q)
           (r : Trip.t) : Trip.t :=
  Trip.mk (Trip.trip_id r) (Trip.user_id r)
          (normalize_text (Trip.user_type r))
          (Trip.bike_id r)
          (normalize_text (Trip.bike_type r))
          (Trip.start_station_id r) (Trip.end_station_id r)
          (to_datetime (Trip.start_time r))
          (to_datetime (Trip.end_time r))
          (fillna med_duration (to_numeric (Trip.duration_minutes r)))
          (fillna med_distance (to_numeric (Trip.distance_km r)))
          (fillna_text fill (mask_status (normalize_text (Trip.status r)))).

Definition valid_trip (r : Trip.t) : bool :=
  negb (isna (Trip.start_time r)) && negb (isna (Trip.end_time r))
  && time_ge (Trip.end_time r) (Trip.start_time r)
  && ge0 (Trip.duration_minutes r)
  && ge0 (Trip.distance_km r)
  && isin (Trip.user_type r) ["casual"; "member"]%string
  && isin (Trip.bike_type r) ["classic"; "electric"]%string
  && isin (Trip.status r) ["completed"; "cancelled"]%string.

Definition recompute_trip (r : Trip.t) : Trip.t :=
  Trip.set_duration_minutes
    (clip_lower0 (minutes_between (Trip.end_time r) (Trip.start_time r))) r.

(** The capacity cell of a row once the cast of line 80 has gone through. *)
Definition capacity_cell (c : cell) : cell :=
  match astype_Int64 (to_numeric c) with
  | OK c' => c'
  | Raise _ => NA
  end.

(** [r0] is the first row of [raw] that carries its key. *)
Definition first_occurrence {R} (key : R -> cell) (raw : list R) (r0 : R)
  : Prop :=
  exists l1 l2,
    raw = l1 ++ r0 :: l2 /\
    forall x, In x l1 -> cell_eqb (key x) (key r0) = false.

(** The cleaned row [r] is what cleaning makes of the raw row [r0]: the
    columns cleaning leaves alone are equal and the coerced ones are the
    coercion of the raw cell. *)
Definition trip_of (r0 r : Trip.t) : Prop :=
  Trip.trip_id r = Trip.trip_id r0 /\
  Trip.user_id r = Trip.user_id r0 /\
  Trip.bike_id r = Trip.bike_id r0 /\
  Trip.start_station_id r = Trip.start_station_id r0 /\
  Trip.end_station_id r = Trip.end_station_id r0 /\
  Trip.start_time r = to_datetime (Trip.start_time r0) /\
  Trip.end_time r = to_datetime (Trip.end_time r0) /\
  Trip.user_type r = normalize_text (Trip.user_type r0) /\
  Trip.bike_type r = normalize_text (Trip.bike_type r0).

Definition station_of (r0 r : Station.t) : Prop :=
  Station.station_id r = Station.station_id r0 /\
  Station.station_name r = Station.station_name r0 /\
  Station.capacity r = capacity_cell (Station.capacity r0) /\
  Station.latitude r = to_numeric (Station.latitude r0) /\
  Station.longitude r = to_numeric (Station.longitude r0).

Definition maintenance_of (r0 r : Maintenance.t) : Prop :=
  Maintenance.record_id r = Maintenance.record_id r0 /\
  Maintenance.bike_id r = Maintenance.bike_id r0 /\
  Maintenance.description r = Maintenance.description r0 /\
  Maintenance.bike_type r = normalize_text (Maintenance.bike_type r0) /\
  Maintenance.date r = to_datetime (Maintenance.date r0) /\
  Maintenance.maintenance_type r
  = normalize_text (Maintenance.maintenance_type r0).

(** Cleaning has created no record: the cleaned table is no longer than
    the raw one, each of its keys is borne by exactly one of its rows, and
    that row is what cleaning makes of the first raw row with the key. *)
Definition no_record_created {R} (key : R -> cell) (of_ : R -> R -> Prop)
           (raw cleaned : list R) : Prop :=
  (List.length cleaned <= List.length raw)%nat /\
  forall r, In r cleaned ->
    occurrences (key r) (map key cleaned) = 1%nat /\
    exists r0, In r0 raw /\ first_occurrence key raw r0 /\ of_ r0 r.

(** The schema of a cleaned trip. *)
Definition clean_trip (r : Trip.t) : Prop :=
  exists ts te d,
    Trip.start_time r = Time ts /\ Trip.end_time r = Time te /\
    (ts <= te)%Z /\
    Trip.duration_minutes r = Num (total_seconds (te - ts) / 60) /\
    Trip.duration_minutes r
    = clip_lower0 (minutes_between (Trip.end_time r) (Trip.start_time r)) /\
    0 <= total_seconds (te - ts) / 60 /\
    Trip.distance_km r = Num d /\ 0 <= d /\
    (Trip.user_type r = Str "casual" \/ Trip.user_type r = Str "member") /\
    (Trip.bike_type r = Str "classic" \/ Trip.bike_type r = Str "electric") /\
    (Trip.status r = Str "completed" \/ Trip.status r = Str "cancelled").

Definition coerce_station (r : Station.t) : Station.t :=
  Station.mk (Station.station_id r) (Station.station_name r)
             (capacity_cell (Station.capacity r))
             (to_numeric (Station.latitude r))
             (to_numeric (Station.longitude r)).

Definition valid_station (r : Station.t) : bool :=
  negb (isna (Station.station_id r)) && negb (isna (Station.station_name r))
  && negb (isna (Station.capacity r)) && negb (isna (Station.latitude r))
  && negb (isna (Station.longitude r))
  && gt0 (Station.capacity r)
  && between (-90) 90 (Station.latitude r)
  && between (-180) 180 (Station.longitude r).

(** The schema of a cleaned station. *)
Definition clean_station (r : Station.t) : Prop :=
  Station.station_id r <> NA /\
  Station.station_name r <> NA /\
  (exists z, Station.capacity r = Int z /\ (0 < z)%Z) /\
  (exists x, Station.latitude r = Num x /\ -90 <= x /\ x <= 90) /\
  (exists y, Station.longitude r = Num y /\ -180 <= y /\ y <= 180).

Definition coerce_maintenance (r : Maintenance.t) : Maintenance.t :=
  Maintenance.mk (Maintenance.record_id r) (Maintenance.bike_id r)
                 (normalize_text (Maintenance.bike_type r))
                 (to_datetime (Maintenance.date r))
                 (normalize_text (Maintenance.maintenance_type r))
                 (to_numeric (Maintenance.cost r))
                 (Maintenance.description r).

Definition valid_maintenance (r : Maintenance.t) : bool :=
  negb (isna (Maintenance.record_id r)) && negb (isna (Maintenance.bike_id r))
  && negb (isna (Maintenance.bike_type r)) && negb (isna (Maintenance.date r))
  && negb (isna (Maintenance.maintenance_type r))
  && isin (Maintenance.bike_type r) ["classic"; "electric"]%string.

(** The schema of a cleaned maintenance record. *)
Definition clean_record (r : Maintenance.t) : Prop :=
  Maintenance.record_id r <> NA /\
  Maintenance.bike_id r <> NA /\
  (Maintenance.bike_type r = Str "classic"
   \/ Maintenance.bike_type r = Str "electric") /\
  (exists t, Maintenance.date r = Time t) /\
  (exists c, Maintenance.maintenance_type r = normalize_text c) /\
  (Maintenance.cost r = NA \/ exists x, Maintenance.cost r = Num x).

(** Either no cost of the table is known or every cost is. *)
Definition costs_settled (maint : list Maintenance.t) : Prop :=
  (forall r, In r maint -> Maintenance.cost r = NA) \/
  (forall r, In r maint -> exists x, Maintenance.cost r = Num x).

(** The cost a row is given on lines 96-98. *)
Definition imputed_cost (maint : list Maintenance.t) (r : Maintenance.t)
  : cell :=
  fillna (median (map Maintenance.cost maint))
         (fillna (median (group_costs maint (Maintenance.bike_type r)))
                 (Maintenance.cost r)).

End CleanData.

(** ** The pandas operations used by the queries *)

(** The datetime accessors, the float64 array of a column
    ([np.asarray(col.to_numpy(), dtype=float)], [None] when a cell does not
    convert and the call raises [ValueError]) and rounding on a float64
    ([Series.round]) are the library's. *)
Class Accessors : Type := {
  dt_hour : Z -> Z;
  dt_day_name : Z -> string;
  dt_to_period_M : Z -> Z;
  asarray_float : list cell -> option (list float);
  round_float : nat -> float -> float
}.

Definition to_numpy {acc : Accessors} (col : list cell)
  : result (list float) :=
  match asarray_float col with
  | Some v => OK v
  | None => Raise ValueError
  end.

(** [col.sum()]: missing cells are skipped; text and timestamps do not add
    up to a number. *)
Fixpoint sum_col (col : list cell) : result Q :=
  match col with
  | [] => OK 0
  | NA :: rest => sum_col rest
  | c :: rest =>
      match number c with
      | Some x => bind (sum_col rest) (fun s => OK (x + s))
      | None => Raise TypeError
      end
  end.

(** [col.count()]: the cells that are not missing. *)
Definition count_col (col : list cell) : nat :=
  List.length (filter (fun c => negb (isna c)) col).

(** [col.mean()]: NaN ([None]) when every cell is missing. *)
Definition mean_col (col : list cell) : result (option Q) :=
  bind (sum_col col)
       (fun s =>
          match count_col col with
          | O => OK None
          | n => OK (Some (s / inject_Z (Z.of_nat n)))
          end).

(** Round half to even, as [np.round] and [Series.round] do. *)
Definition round_half_even (x : Q) : Z :=
  let f := Qfloor x in
  let r := x - inject_Z f in
  if Qle_bool r (1 # 2)
  then if Qeq_bool r (1 # 2) then (if Z.even f then f else f + 1)%Z else f
  else (f + 1)%Z.

Definition round_to (digits : nat) (x : Q) : Q :=
  let p := inject_Z (10 ^ Z.of_nat digits) in
  inject_Z (round_half_even (x * p)) / p.

Definition round_opt (digits : nat) (x : option Q) : option Q :=
  option_map (round_to digits) x.

(** The distinct cells of a column in order of first appearance, missing
    cells dropped. *)
Definition unique (col : list cell) : list cell :=
  drop_duplicates (fun c => c) (filter (fun c => negb (isna c)) col).

(** [col.nunique()] *)
Definition nunique (col : list cell) : nat := List.length (unique col).

(** [sort_values(by, ascending=False)] on a count column.  The sort is
    taken to be stable: rows with equal counts keep the order they come
    in. *)
Fixpoint insert_desc {A} (key : A -> nat) (x : A) (l : list A) : list A :=
  match l with
  | [] => [x]
  | y :: r =>
      if (key y <=? key x)%nat then x :: l else y :: insert_desc key x r
  end.

Definition sort_values_desc {A} (key : A -> nat) (l : list A) : list A :=
  fold_right (insert_desc key) [] l.

(** [col.value_counts()]: one row per distinct value, first appearance
    first, then sorted by count, largest first. *)
Definition value_counts (col : list cell) : list (cell * nat) :=
  sort_values_desc snd (map (fun k => (k, occurrences k col)) (unique col)).

(** [df.head(n)]: a negative [n] leaves the last [-n] rows out. *)
Definition head {A} (n : Z) (l : list A) : list A :=
  if (n <? 0)%Z then firstn (List.length l - Z.to_nat (- n)) l
  else firstn (Z.to_nat n) l.

(** The order [groupby] and [sort_index] put keys in: numbers before
    timestamps before text, each kind by value. *)
Definition cell_leb (a b : cell) : bool :=
  match a, b with
  | Str s, Str s' => String.leb s s'
  | Time t, Time t' => (t <=? t')%Z
  | NA, _ => isna b
  | _, NA => true
  | Str _, _ => false
  | _, Str _ => true
  | Time _, _ => false
  | _, Time _ => true
  | _, _ =>
      match number a, number b with
      | Some x, Some y => Qle_bool x y
      | _, _ => true
      end
  end.

Fixpoint keys_eqb (a b : list cell) : bool :=
  match a, b with
  | [], [] => true
  | x :: a', y :: b' => cell_eqb x y && keys_eqb a' b'
  | _, _ => false
  end.

Fixpoint keys_leb (a b : list cell) : bool :=
  match a, b with
  | [], _ => true
  | _ :: _, [] => false
  | x :: a', y :: b' =>
      if cell_eqb x y then keys_leb a' b' else cell_leb x y
  end.

Fixpoint insert_key (k : list cell) (l : list (list cell))
  : list (list cell) :=
  match l with
  | [] => [k]
  | k' :: r => if keys_leb k k' then k :: l else k' :: insert_key k r
  end.

Fixpoint distinct_keys (seen : list (list cell)) (l : list (list cell))
  : list (list cell) :=
  match l with
  | [] => []
  | k :: r =>
      if existsb (keys_eqb k) seen then distinct_keys seen r
      else k :: distinct_keys (k :: seen) r
  end.

(** The group keys of [df.groupby(by)]: rows with a missing key are left
    out and the keys come in ascending order. *)
Definition group_keys {R} (by_ : R -> list cell) (df : list R)
  : list (list cell) :=
  fold_right insert_key []
    (distinct_keys []
       (filter (forallb (fun c => negb (isna c))) (map by_ df))).

(** The rows of one group. *)
Definition group {R} (by_ : R -> list cell) (df : list R) (k : list cell)
  : list R :=
  filter (fun r => keys_eqb (by_ r) k) df.

(** [df.groupby(by)[col].count().reset_index(name=...)] *)
Definition groupby_count {R} (by_ : R -> list cell) (col : R -> cell)
           (df : list R) : list (list cell * nat) :=
  map (fun k => (k, count_col (map col (group by_ df k)))) (group_keys by_ df).

(** [left.merge(st[["station_id", "station_name"]], how="left")] on the
    station id: every left row once per station with that id, in the
    order of the left table, and with a missing name when there is none. *)
Definition merge_station_name {A} (key : A -> cell) (left : list A)
           (st : list Station.t) : list (A * cell) :=
  flat_map
    (fun l =>
       match filter (fun s => cell_eqb (Station.station_id s) (key l)) st with
       | [] => [(l, NA)]
       | ms => map (fun s => (l, Station.station_name s)) ms
       end)
    left.



(** [col.max()] and [col.min()] on a timestamp column, NaT skipped; NaT
    ([None]) when nothing is left. *)
Fixpoint times (col : list cell) : result (list Z) :=
  match col with
  | [] => OK []
  | NA :: rest => times rest
  | Time t :: rest => bind (times rest) (fun ts => OK (t :: ts))
  | _ :: _ => Raise TypeError
  end.

Definition max_time (col : list cell) : result (option Z) :=
  bind (times col)
       (fun ts =>
          match ts with
          | [] => OK None
          | t :: r => OK (Some (fold_left Z.max r t))
          end).

Definition min_time (col : list cell) : result (option Z) :=
  bind (times col)
       (fun ts =>
          match ts with
          | [] => OK None
          | t :: r => OK (Some (fold_left Z.min r t))
          end).

(** [a / b] on numbers: division by zero is an error. *)
Definition py_div (a b : Q) : result Q :=
  if Qeq_bool b 0 then Raise ZeroDivisionError else OK (a / b).

(** [col.sort_index()] and the ascending sorts: a stable insertion by key. *)
Fixpoint insert_asc {A} (leb : A -> A -> bool) (x : A) (l : list A) : list A :=
  match l with
  | [] => [x]
  | y :: r => if leb x y then x :: l else y :: insert_asc leb x r
  end.

Definition sort_asc {A} (leb : A -> A -> bool) (l : list A) : list A :=
  fold_right (insert_asc leb) [] l.

Definition sort_index {B} (l : list (cell * B)) : list (cell * B) :=
  sort_asc (fun a b => cell_leb (fst a) (fst b)) l.

(** [col.dt.<accessor>]: only a datetime column has a [.dt]. *)
Fixpoint dt_map (f : Z -> cell) (col : list cell) : result (list cell) :=
  match col with
  | [] => OK []
  | Time t :: rest => bind (dt_map f rest) (fun r => OK (f t :: r))
  | NA :: rest => bind (dt_map f rest) (fun r => OK (NA :: r))
  | _ :: _ => Raise AttributeError
  end.

Fixpoint map2 {A B C} (f : A -> B -> C) (a : list A) (b : list B) : list C :=
  match a, b with
  | x :: a', y :: b' => f x y :: map2 f a' b'
  | _, _ => []
  end.

(** ** analyzer.py: [BikeShareSystem] *)

Module BikeShareSystem.

Record t : Type := mk {
  trips : option (list Trip.t);
  stations : option (list Station.t);
  maintenance : option (list Maintenance.t)
}.

(** [__init__] *)
Definition init : t := mk None None None.

(** A method: it returns or raises, and leaves a state behind. *)
Definition M (A : Type) : Type := t -> result A * t.

Definition ret {A} (a : A) : M A := fun self => (OK a, self).
Definition raise {A} (e : error) : M A := fun self => (Raise e, self).
Definition lift {A} (r : result A) : M A := fun self => (r, self).
Definition bindM {A B} (m : M A) (f : A -> M B) : M B :=
  fun self =>
    match m self with
    | (OK a, self') => f a self'
    | (Raise e, self') => (Raise e, self')
    end.

Notation "x <- m ;; k" := (bindM m (fun x => k))
  (at level 61, m at next level, right associativity).

(** [load_data], given the three tables [pd.read_csv] returns. *)
Definition load_data (trips_csv : list Trip.t) (stations_csv : list Station.t)
           (maintenance_csv : list Maintenance.t) : M unit :=
  fun _ => (OK tt, mk (Some trips_csv) (Some stations_csv)
                      (Some maintenance_csv)).

Section Methods.
Context {pd : Pandas} {acc : Accessors}.

(** [clean_data]: the stored tables are replaced on line 100, after all
    three have been cleaned; an exception before that leaves them alone.
    The CSV export that follows is not part of the state. *)
Definition clean_data : M unit :=
  fun self =>
    match trips self, stations self, maintenance self with
    | Some trips, Some stations, Some maint =>
        let trips := clean_trips trips in
        match clean_stations stations with
        | OK stations =>
            let maint := clean_maintenance maint in
            (OK tt, mk (Some trips) (Some stations) (Some maint))
        | Raise e => (Raise e, self)
        end
    | _, _, _ => (Raise (RuntimeError "Call load_data() first"), self)
    end.

(** *** Internal helpers *)

Definition _trips : M (list Trip.t) :=
  fun self =>
    match trips self with
    | None => (Raise (RuntimeError "Trips not loaded"), self)
    | Some df => (OK df, self)
    end.

Definition _stations : M (list Station.t) :=
  fun self =>
    match stations self with
    | None => (Raise (RuntimeError "Stations not loaded"), self)
    | Some df => (OK df, self)
    end.

Definition _maint : M (list Maintenance.t) :=
  fun self =>
    match maintenance self with
    | None => (Raise (RuntimeError "Maintenance not loaded"), self)
    | Some df => (OK df, self)
    end.

(** *** Analytics *)

Record summary : Type := {
  total_trips : nat;
  total_distance_km : Q;
  avg_duration_min : option Q
}.

Definition total_trips_summary : M summary :=
  df <- _trips ;;
  dist <- lift (sum_col (map Trip.distance_km df)) ;;
  avg <- lift (mean_col (map Trip.duration_minutes df)) ;;
  ret {| total_trips := List.length df;
         total_distance_km := round_to 2 dist;
         avg_duration_min := round_opt 2 avg |}.

(** Rows of the result: ((station_id, trip_count), station_name). *)
Definition top_start_stations (n : Z) : M (list (cell * nat * cell)) :=
  df <- _trips ;;
  st <- _stations ;;
  let counts := head n (value_counts (map Trip.start_station_id df)) in
  ret (merge_station_name fst counts st).

Definition top_end_stations (n : Z) : M (list (cell * nat * cell)) :=
  df <- _trips ;;
  st <- _stations ;;
  let counts := head n (value_counts (map Trip.end_station_id df)) in
  ret (merge_station_name fst counts st).

Definition peak_usage_hours : M (list (cell * nat)) :=
  df <- _trips ;;
  hours <- lift (dt_map (fun t => Int (dt_hour t)) (map Trip.start_time df)) ;;
  ret (sort_index (value_counts hours)).

Definition busiest_day_of_week : M (list (cell * nat)) :=
  df <- _trips ;;
  days <- lift (dt_map (fun t => Str (dt_day_name t))
                       (map Trip.start_time df)) ;;
  ret (value_counts days).

Definition avg_distance_by_user_type : M (list (list cell * option Q)) :=
  df <- _trips ;;
  let by_ := fun r => [Trip.user_type r] in
  lift (mapM (fun k =>
                bind (mean_col (map Trip.distance_km (group by_ df k)))
                     (fun m => OK (k, round_opt 3 m)))
             (group_keys by_ df)).

(** The elapsed window, in minutes, from the first start to the last end:
    NaN ([None]) when either is NaT. *)
Definition window_minutes (df : list Trip.t) : result (option Q) :=
  bind (max_time (map Trip.end_time df))
       (fun last =>
          bind (min_time (map Trip.start_time df))
               (fun first =>
                  match last, first with
                  | Some e, Some s => OK (Some (total_seconds (e - s) / 60))
                  | _, _ => OK None
                  end)).

(** The rate is a float: [Some x], or [None] for NaN. *)
Definition bike_utilization_rate : M (option Q) :=
  df <- _trips ;;
  total_used_minutes <- lift (sum_col (map Trip.duration_minutes df)) ;;
  let num_bikes := nunique (map Trip.bike_id df) in
  window <- lift (window_minutes df) ;;
  match window with
  | None => if Nat.eqb num_bikes 0 then ret (Some 0) else ret None
  | Some w =>
      if Nat.eqb num_bikes 0 || Qle_bool w 0 then ret (Some 0)
      else
        r <- lift (py_div total_used_minutes
                          (inject_Z (Z.of_nat num_bikes) * w)) ;;
        ret (Some r)
  end.

Definition monthly_trip_trend : M (list (cell * nat)) :=
  df <- _trips ;;
  months <- lift (dt_map (fun t => Int (dt_to_period_M t))
                         (map Trip.start_time df)) ;;
  let keyed := combine months df in
  let counts :=
    groupby_count (fun p => [fst p]) (fun p => Trip.trip_id (snd p)) keyed in
  ret (sort_index (map (fun kc => (hd NA (fst kc), snd kc)) counts)).

(** Rows of the result: ([user_id; user_type], trip_count). *)
Definition top_active_users (n : Z) : M (list (list cell * nat)) :=
  df <- _trips ;;
  let out :=
    groupby_count (fun r => [Trip.user_id r; Trip.user_type r]) Trip.trip_id
                  df in
  ret (head n (sort_values_desc snd out)).

Definition maintenance_cost_by_bike_type : M (list (list cell * Q)) :=
  m <- _maint ;;
  let by_ := fun r => [Maintenance.bike_type r] in
  lift (mapM (fun k =>
                bind (sum_col (map Maintenance.cost (group by_ m k)))
                     (fun s => OK (k, round_to 2 s)))
             (group_keys by_ m)).

(** Rows of the result:
    ((([start_station_id; end_station_id], trip_count), start_station_name),
     end_station_name). *)
Definition top_routes (n : Z) : M (list (list cell * nat * cell * cell)) :=
  df <- _trips ;;
  st <- _stations ;;
  let routes :=
    groupby_count
      (fun r => [Trip.start_station_id r; Trip.end_station_id r])
      Trip.trip_id df in
  let routes := head n (sort_values_desc snd routes) in
  let routes := merge_station_name (fun r => nth 0 (fst r) NA) routes st in
  let routes :=
    merge_station_name (fun r => nth 1 (fst (fst r)) NA) routes st in
  ret routes.

Definition trip_completion_rate : M (list (cell * Q)) :=
  df <- _trips ;;
  let counts := value_counts (map Trip.status df) in
  let total := fold_right (fun kc s => (snd kc + s)%nat) O counts in
  ret (map (fun kc =>
              (fst kc,
               round_to 4 (inject_Z (Z.of_nat (snd kc))
                           / inject_Z (Z.of_nat total))))
           counts).

Definition avg_trips_per_user_by_type : M (list (list cell * Q)) :=
  df <- _trips ;;
  let user_counts :=
    groupby_count (fun r => [Trip.user_type r; Trip.user_id r]) Trip.trip_id
                  df in
  let by_ := fun kc : list cell * nat => [hd NA (fst kc)] in
  ret (map (fun k =>
              let g := group by_ user_counts k in
              let s := fold_right (fun kc s => (snd kc + s)%nat) O g in
              (k, round_to 3 (inject_Z (Z.of_nat s)
                              / inject_Z (Z.of_nat (List.length g)))))
           (group_keys by_ user_counts)).

Definition bikes_highest_maintenance_frequency (n : Z)
  : M (list (list cell * nat)) :=
  m <- _maint ;;
  let freq :=
    groupby_count (fun r => [Maintenance.bike_id r; Maintenance.bike_type r])
                  Maintenance.record_id m in
  ret (head n (sort_values_desc snd freq)).

Record outlier : Type := {
  o_trip_id : cell;
  o_duration_minutes : cell;
  o_distance_km : cell;
  o_user_type : cell;
  o_status : cell;
  outlier_reason : string
}.

(** The order of [sort_values(["outlier_reason", "duration_minutes"],
    ascending=[True, False])]; a missing duration goes last. *)
Definition outlier_leb (a b : outlier) : bool :=
  if String.eqb (outlier_reason a) (outlier_reason b)
  then
    match number (o_duration_minutes a), number (o_duration_minutes b) with
    | Some x, Some y => Qle_bool y x
    | Some _, None => true
    | None, Some _ => false
    | None, None => true
    end
  else String.ltb (outlier_reason a) (outlier_reason b).

Definition outlier_trips (threshold : float) : M (list outlier) :=
  df <- _trips ;;
  dur <- lift (to_numpy (map Trip.duration_minutes df)) ;;
  let mask_dur := numerical.detect_outliers_zscore dur threshold in
  dist <- lift (to_numpy (map Trip.distance_km df)) ;;
  let mask_dist := numerical.detect_outliers_zscore dist threshold in
  let any_mask := map2 orb mask_dur mask_dist in
  let reasons :=
    map2 (fun d k =>
            if d && k then "duration+distance"%string
            else if d then "duration"%string else "distance"%string)
         mask_dur mask_dist in
  let out :=
    map (fun rw =>
           {| o_trip_id := Trip.trip_id (fst rw);
              o_duration_minutes := Trip.duration_minutes (fst rw);
              o_distance_km := Trip.distance_km (fst rw);
              o_user_type := Trip.user_type (fst rw);
              o_status := Trip.status (fst rw);
              outlier_reason := snd rw |})
        (map snd
             (filter fst (combine any_mask (combine df reasons)))) in
  ret (sort_asc outlier_leb out).

Definition segment_revenue (df : list Trip.t) (utype : string)
           (per_minute per_km unlock_fee : float) : result float :=
  let sub :=
    filter (fun r => cell_eqb (Trip.user_type r) (Str utype)) df in
  bind (to_numpy (map Trip.duration_minutes sub))
       (fun durations =>
          bind (to_numpy (map Trip.distance_km sub))
               (fun distances =>
                  let fares :=
                    numerical.calculate_fares durations distances
                                              per_minute per_km unlock_fee in
                  OK (numerical.np_sum fares))).

Definition revenue_by_user_type : M (list (string * float)) :=
  df <- _trips ;;
  casual <- lift (segment_revenue df "casual" CasualPricing.PER_MINUTE
                                  CasualPricing.PER_KM
                                  CasualPricing.UNLOCK_FEE) ;;
  member <- lift (segment_revenue df "member" MemberPricing.PER_MINUTE
                                  MemberPricing.PER_KM 0%float) ;;
  ret [("casual"%string, round_float 2 casual);
       ("member"%string, round_float 2 member)].

(** *** The analytics operations, by name *)

Inductive query : Type :=
| TotalTripsSummary
| TopStartStations (n : Z)
| TopEndStations (n : Z)
| PeakUsageHours
| BusiestDayOfWeek
| AvgDistanceByUserType
| BikeUtilizationRate
| MonthlyTripTrend
| TopActiveUsers (n : Z)
| MaintenanceCostByBikeType
| TopRoutes (n : Z)
| TripCompletionRate
| AvgTripsPerUserByType
| BikesHighestMaintenanceFrequency (n : Z)
| OutlierTrips (threshold : float)
| RevenueByUserType.

Definition answer (q : query) : Type :=
  match q with
  | TotalTripsSummary => summary
  | TopStartStations _ | TopEndStations _ => list (cell * nat * cell)
  | PeakUsageHours | BusiestDayOfWeek | MonthlyTripTrend => list (cell * nat)
  | AvgDistanceByUserType => list (list cell * option Q)
  | BikeUtilizationRate => option Q
  | TopActiveUsers _ | BikesHighestMaintenanceFrequency _ =>
      list (list cell * nat)
  | MaintenanceCostByBikeType | AvgTripsPerUserByType => list (list cell * Q)
  | TopRoutes _ => list (list cell * nat * cell * cell)
  | TripCompletionRate => list (cell * Q)
  | OutlierTrips _ => list outlier
  | RevenueByUserType => list (string * float)
  end.

Definition run (q : query) : M (answer q) :=
  match q return M (answer q) with
  | TotalTripsSummary => total_trips_summary
  | TopStartStations n => top_start_stations n
  | TopEndStations n => top_end_stations n
  | PeakUsageHours => peak_usage_hours
  | BusiestDayOfWeek => busiest_day_of_week
  | AvgDistanceByUserType => avg_distance_by_user_type
  | BikeUtilizationRate => bike_utilization_rate
  | MonthlyTripTrend => monthly_trip_trend
  | TopActiveUsers n => top_active_users n
  | MaintenanceCostByBikeType => maintenance_cost_by_bike_type
  | TopRoutes n => top_routes n
  | TripCompletionRate => trip_completion_rate
  | AvgTripsPerUserByType => avg_trips_per_user_by_type
  | BikesHighestMaintenanceFrequency n => bikes_highest_maintenance_frequency n
  | OutlierTrips threshold => outlier_trips threshold
  | RevenueByUserType => revenue_by_user_type
  end.

(** The stored table an operation asks for first. *)
Definition first_table (q : query) (self : t) : bool :=
  match q with
  | MaintenanceCostByBikeType | BikesHighestMaintenanceFrequency _ =>
      match maintenance self with Some _ => true | None => false end
  | _ => match trips self with Some _ => true | None => false end
  end.

(** An outcome that is the precondition error of the helpers. *)
Definition not_loaded_error {A} (r : result A) : Prop :=
  exists msg, r = Raise (RuntimeError msg).

(** A result that is not the precondition error. *)
Definition quiet {A} (r : result A) : Prop := ~ not_loaded_error r.

(** The three tables are stored ([load_data] has run). *)
Definition loaded (self : t) : Prop :=
  trips self <> None /\ stations self <> None /\ maintenance self <> None.

(** A method that leaves the stored tables as they are. *)
Definition reads_only {A} (m : M A) : Prop :=
  forall self, snd (m self) = self.

(** A method that raises no precondition error once the tables are
    loaded. *)
Definition guards_only {A} (m : M A) : Prop :=
  forall self, loaded self -> ~ not_loaded_error (fst (m self)).

End Methods.
End BikeShareSystem.

(** ** Sample tables *)

(** A library that reads typed cells only: no text is taken for a date or
    a number, and cells that are not text print as the empty string. *)
Definition typed_pandas : Pandas :=
  {| parse_datetime := fun _ => None;
     parse_numeric := fun _ => None;
     str_of := fun _ => ""%string |}.

(** Accessors for the samples: naive UTC timestamps, month periods
    numbered from January 1970, float64 values obtained by dividing
    numerator by denominator, rounding to the nearest even multiple. *)
Definition day_names : list string :=
  ["Thursday"; "Friday"; "Saturday"; "Sunday"; "Monday"; "Tuesday";
   "Wednesday"]%string.

Definition sample_period_M (t : Z) : Z :=
  let days := (t / 86400000000000)%Z in
  let z := (days + 719468)%Z in
  let era := (z / 146097)%Z in
  let doe := (z - era * 146097)%Z in
  let yoe := ((doe - doe / 1460 + doe / 36524 - doe / 146096) / 365)%Z in
  let doy := (doe - (365 * yoe + yoe / 4 - yoe / 100))%Z in
  let mp := ((5 * doy + 2) / 153)%Z in
  let m := (if mp <? 10 then mp + 3 else mp - 9)%Z in
  let y := (yoe + era * 400 + (if m <=? 2 then 1 else 0))%Z in
  ((y - 1970) * 12 + (m - 1))%Z.

Definition float_of_Z (z : Z) : float :=
  match z with
  | Z0 => 0%float
  | Zpos _ => PrimFloat.of_uint63 (Uint63.of_Z z)
  | Zneg p => PrimFloat.opp (PrimFloat.of_uint63 (Uint63.of_Z (Zpos p)))
  end.

Definition float_of_Q (x : Q) : float :=
  PrimFloat.div (float_of_Z (Qnum x)) (float_of_Z (Zpos (Qden x))).

Fixpoint sample_asarray (col : list cell) : option (list float) :=
  match col with
  | [] => Some []
  | c :: rest =>
      match c, sample_asarray rest with
      | NA, Some v => Some (PrimFloat.nan :: v)
      | Int z, Some v => Some (float_of_Z z :: v)
      | Num x, Some v => Some (float_of_Q x :: v)
      | _, _ => None
      end
  end.

Definition sample_round (digits : nat) (x : float) : float :=
  let p := float_of_Z (10 ^ Z.of_nat digits) in
  let y := PrimFloat.mul x p in
  let big := 4503599627370496%float in
  let r :=
    if PrimFloat.ltb y 0%float
    then PrimFloat.add (PrimFloat.sub y big) big
    else PrimFloat.sub (PrimFloat.add y big) big in
  PrimFloat.div r p.

Definition sample_accessors : Accessors :=
  {| dt_hour := fun t => ((t / 3600000000000) mod 24)%Z;
     dt_day_name :=
       fun t => nth (Z.to_nat ((t / 86400000000000) mod 7)) day_names
                    ""%string;
     dt_to_period_M := sample_period_M;
     asarray_float := sample_asarray;
     round_float := sample_round |}.

(** 2024-01-01 08:00:00, in nanoseconds since the epoch. *)
Definition t0 : Z := 1704096000000000000.
Definition minute : Z := 60000000000.

Definition sample_trips : list Trip.t :=
  [ Trip.mk (Str "TR1") (Str "U2") (Str " Casual ") (Str "B1") (Str "classic")
            (Str "A") (Str "B") (Time t0) (Time (t0 + 10 * minute))
            (Num 99) (Num 2.5) NA;
    Trip.mk (Str "TR1") (Str "U9") (Str "member") (Str "B9") (Str "classic")
            (Str "C") (Str "C") (Time t0) (Time (t0 + 5 * minute))
            (Num 5) (Num 1) (Str "completed");
    Trip.mk (Str "TR2") (Str "U1") (Str "member") (Str "B2") (Str "electric")
            (Str "A") (Str "C") (Time (t0 + 30 * minute))
            (Time (t0 + 50 * minute)) NA (Int 4) (Str "Completed");
    Trip.mk (Str "TR3") (Str "U1") (Str "member") (Str "B2") (Str "electric")
            (Str "B") (Str "A") (Time (t0 + 90 * minute))
            (Time (t0 + 60 * minute)) (Num 30) (Num 3) (Str "cancelled");
    Trip.mk (Str "TR4") (Str "U3") (Str "guest") (Str "B1") (Str "classic")
            (Str "A") (Str "B") (Time t0) (Time (t0 + 7 * minute))
            (Num 7) (Num 1.2) (Str "completed") ].

Definition sample_stations : list Station.t :=
  [ Station.mk (Str "A") (Str "Central Station") (Int 20) (Num 48.8) (Num 9.2);
    Station.mk (Str "A") (Str "Duplicate") (Int 5) (Num 48.8) (Num 9.2);
    Station.mk (Str "B") (Str "City Hall") (Num 15) (Num 48.76) (Int 9);
    Station.mk (Str "C") (Str "Old Town") (Int 0) (Num 48.9) (Num 9.3);
    Station.mk (Str "D") NA (Int 10) (Num 48.7) (Num 9.1);
    Station.mk (Str "E") (Str "Far North") (Int 10) (Num 91) (Num 9.1) ].


Definition sample_maintenance : list Maintenance.t :=
  [ Maintenance.mk (Str "MR1") (Str "B1") (Str "classic") (Time t0)
                   (Str "tire_repair") (Num 10) (Str "");
    Maintenance.mk (Str "MR2") (Str "B1") (Str "Classic ") (Time t0)
                   (Str "chain_lubrication") NA (Str "");
    Maintenance.mk (Str "MR3") (Str "B3") (Str "classic") (Time t0)
                   (Str "tire_repair") (Num 30) (Str "");
    Maintenance.mk (Str "MR4") (Str "B2") (Str "electric") (Time t0)
                   (Str "battery_replacement") NA (Str "");
    Maintenance.mk (Str "MR4") (Str "B2") (Str "electric") (Time t0)
                   (Str "battery_replacement") (Num 200) (Str "");
    Maintenance.mk (Str "MR5") (Str "B4") (Str "cargo") (Time t0)
                   (Str "general_inspection") (Num 1000) (Str "") ].








Definition sample_system : BikeShareSystem.t :=
  BikeShareSystem.mk (Some sample_trips) (Some sample_stations)
                     (Some sample_maintenance).

(** The state [clean_data] leaves on the sample tables. *)
Definition sample_cleaned : BikeShareSystem.t :=
  snd (@BikeShareSystem.clean_data typed_pandas sample_system).

(** The first cleaned sample trip. *)
Definition first_clean_trip : Trip.t :=
  Trip.mk (Str "TR1") (Str "U2") (Str "casual") (Str "B1") (Str "classic")
          (Str "A") (Str "B") (Time t0) (Time (t0 + 10 * minute))
          (Num (total_seconds (10 * minute) / 60)) (Num 2.5)
          (Str "completed").


(** A sample record of the validated maintenance table whose cost is
    missing and whose bike type has no known cost. *)
Definition electric_record : Maintenance.t :=
  Maintenance.mk (Str "MR4") (Str "B2") (Str "electric") (Time t0)
                 (Str "battery_replacement") NA (Str "").


(** * Properties *)

(** ** Pricing *)

(** C3: on a trip of 10 minutes and 2 km the casual fare is the float 2.70
    and the member fare the float 0.90, and the peak-hour fare of any trip
    is 1.5 times its casual fare. *)
Theorem pricing_fares :
  CasualPricing.calculate_cost 10 2 = 2.70%float /\
  MemberPricing.calculate_cost 10 2 = 0.90%float /\
  forall duration_minutes distance_km : float,
    PeakHourPricing.calculate_cost duration_minutes distance_km
    = (1.5 * CasualPricing.calculate_cost duration_minutes distance_km)%float.
Proof.
  split; [ vm_compute; reflexivity | split ].
  - vm_compute; reflexivity.
  - intros d k. reflexivity.
Qed.

(** ** The z-score mask *)

Section ZScore.
Import numerical.
Local Open Scope float_scope.






End ZScore.

(** ** Cells and deduplication *)

Lemma cell_eqb_refl (a : cell) : cell_eqb a a = true.
Proof.
  destruct a; simpl.
  - reflexivity.
  - apply String.eqb_refl.
  - apply Qeq_bool_refl.
  - apply Qeq_bool_refl.
  - apply Z.eqb_refl.
Qed.

Lemma cell_eqb_sym (a b : cell) : cell_eqb a b = cell_eqb b a.
Proof.
  destruct a, b; simpl; try reflexivity.
  - apply String.eqb_sym.
  - apply Qeq_bool_comm.
  - apply Qeq_bool_comm.
  - apply Qeq_bool_comm.
  - apply Qeq_bool_comm.
  - apply Z.eqb_sym.
Qed.

Section Dedup.
Context {R : Type} (key : R -> cell).

Lemma drop_duplicates_from_In seen df r :
  In r (drop_duplicates_from key seen df) -> In r df.
Proof.
  revert seen. induction df as [|x df IH]; simpl; intros seen H; [easy|].
  destruct (existsb (cell_eqb (key x)) seen).
  - right. eapply IH; eauto.
  - destruct H as [H|H]; [now left | right; eapply IH; eauto].
Qed.

Lemma drop_duplicates_from_fresh seen df r :
  In r (drop_duplicates_from key seen df) ->
  forall k, In k seen -> cell_eqb (key r) k = false.
Proof.
  revert seen. induction df as [|x df IH]; simpl; intros seen H k Hk; [easy|].
  destruct (existsb (cell_eqb (key x)) seen) eqn:E.
  - eapply IH; eauto.
  - destruct H as [H|H].
    + subst. destruct (cell_eqb (key r) k) eqn:E'; [|reflexivity].
      assert (existsb (cell_eqb (key r)) seen = true)
        by (apply existsb_exists; eauto).
      congruence.
    + eapply IH; eauto. now right.
Qed.

Lemma drop_duplicates_from_unique seen df :
  unique_keys (map key (drop_duplicates_from key seen df)).
Proof.
  revert seen. induction df as [|x df IH]; simpl; intros seen; [exact I|].
  destruct (existsb (cell_eqb (key x)) seen); [apply IH|].
  simpl. split; [|apply IH].
  intros k' Hk'. apply in_map_iff in Hk' as (r & <- & Hr).
  rewrite cell_eqb_sym.
  eapply drop_duplicates_from_fresh; eauto. now left.
Qed.

Lemma drop_duplicates_from_length seen df :
  (List.length (drop_duplicates_from key seen df) <= List.length df)%nat.
Proof.
  revert seen. induction df as [|x df IH]; simpl; intros seen; [lia|].
  destruct (existsb (cell_eqb (key x)) seen); simpl.
  - specialize (IH seen). lia.
  - specialize (IH (key x :: seen)). lia.
Qed.

(** A row that survives is the first row of the table with its key. *)
Lemma drop_duplicates_from_first seen df r :
  In r (drop_duplicates_from key seen df) ->
  exists l1 l2,
    df = l1 ++ r :: l2 /\
    forall x, In x l1 -> cell_eqb (key x) (key r) = false.
Proof.
  revert seen. induction df as [|x df IH]; simpl; intros seen H; [easy|].
  destruct (existsb (cell_eqb (key x)) seen) eqn:E.
  - pose proof (drop_duplicates_from_fresh _ _ _ H) as Hf.
    destruct (IH _ H) as (l1 & l2 & -> & Hl1).
    exists (x :: l1), l2. split; [reflexivity|].
    intros y [<-|Hy]; [|now apply Hl1].
    apply existsb_exists in E as (k & Hk & Ek).
    destruct (cell_eqb (key x) (key r)) eqn:E'; [|reflexivity].
    exfalso. specialize (Hf k Hk).
    (* key x matches both k and key r *)
    clear - Ek E' Hf.
    destruct (key x), k, (key r); simpl in *; try discriminate;
      repeat match goal with
             | H : String.eqb _ _ = true |- _ => apply String.eqb_eq in H; subst
             | H : Z.eqb _ _ = true |- _ => apply Z.eqb_eq in H; subst
             end;
      try (rewrite String.eqb_refl in Hf; discriminate);
      try (rewrite Z.eqb_refl in Hf; discriminate);
      try (apply Qeq_bool_sym in E';
           pose proof (Qeq_bool_trans _ _ _ E' Ek); congruence).
  - destruct H as [<-|H].
    + exists [], df. split; [reflexivity | intros y []].
    + pose proof (drop_duplicates_from_fresh _ _ _ H (key x) (or_introl eq_refl))
        as Hf.
      destruct (IH _ H) as (l1 & l2 & -> & Hl1).
      exists (x :: l1), l2. split; [reflexivity|].
      intros y [<-|Hy]; [|now apply Hl1].
      now rewrite cell_eqb_sym.
Qed.

(** Deduplication changes nothing on a table whose keys are distinct. *)
Lemma drop_duplicates_from_id seen df :
  unique_keys (map key df) ->
  (forall r k, In r df -> In k seen -> cell_eqb (key r) k = false) ->
  drop_duplicates_from key seen df = df.
Proof.
  revert seen. induction df as [|x df IH]; simpl; intros seen Hu Hs;
    [reflexivity|].
  destruct Hu as [Hx Hu].
  destruct (existsb (cell_eqb (key x)) seen) eqn:E.
  - apply existsb_exists in E as (k & Hk & Ek).
    rewrite (Hs x k) in Ek; [discriminate | now left | assumption].
  - f_equal. apply IH; [assumption|].
    intros r k Hr [<-|Hk].
    + rewrite cell_eqb_sym. apply Hx. now apply in_map.
    + apply Hs; [now right | assumption].
Qed.

Lemma drop_duplicates_id df :
  unique_keys (map key df) -> drop_duplicates key df = df.
Proof.
  intros H. apply drop_duplicates_from_id; [assumption | intros ? ? ? []].
Qed.

Lemma unique_keys_filter (p : R -> bool) df :
  unique_keys (map key df) -> unique_keys (map key (filter p df)).
Proof.
  induction df as [|x df IH]; simpl; intros H; [exact I|].
  destruct H as [Hx Hu]. destruct (p x); simpl; [|now apply IH].
  split; [|now apply IH].
  intros k' Hk'. apply Hx.
  apply in_map_iff in Hk' as (r & <- & Hr).
  apply in_map. now apply filter_In in Hr.
Qed.

Lemma unique_keys_once df r :
  unique_keys (map key df) -> In r df ->
  occurrences (key r) (map key df) = 1%nat.
Proof.
  unfold occurrences.
  induction df as [|x df IH]; simpl; intros Hu Hr; [easy|].
  destruct Hu as [Hx Hu]. destruct Hr as [<-|Hr].
  - rewrite cell_eqb_refl. simpl. f_equal.
    assert (filter (cell_eqb (key x)) (map key df) = []) as ->; [|reflexivity].
    clear - Hx. induction (map key df) as [|k l IHl]; simpl; [reflexivity|].
    rewrite (Hx k (or_introl eq_refl)). apply IHl.
    intros k' Hk'. apply Hx. now right.
  - assert (cell_eqb (key r) (key x) = false) as ->.
    { rewrite cell_eqb_sym. apply Hx. now apply in_map. }
    now apply IH.
Qed.

End Dedup.

(** ** The cleaning pipeline, row by row *)

Lemma filter_filter {A} (p q : A -> bool) (l : list A) :
  filter q (filter p l) = filter (fun x => p x && q x) l.
Proof.
  induction l as [|x l IH]; simpl; [reflexivity|].
  destruct (p x); simpl; [destruct (q x)|]; now rewrite IH.
Qed.

Lemma map_id_on {A} (f : A -> A) (l : list A) :
  (forall x, In x l -> f x = x) -> map f l = l.
Proof.
  induction l as [|x l IH]; simpl; intros H; [reflexivity|].
  rewrite H by now left. f_equal. apply IH. intros; apply H; now right.
Qed.

Lemma filter_id_on {A} (p : A -> bool) (l : list A) :
  (forall x, In x l -> p x = true) -> filter p l = l.
Proof.
  induction l as [|x l IH]; simpl; intros H; [reflexivity|].
  rewrite H by now left. f_equal. apply IH. intros; apply H; now right.
Qed.

Section CleaningFacts.
Context {pd : Pandas}.

Lemma trips_imputed_rows (trips : list Trip.t) :
  exists fill med_duration med_distance,
    trips_imputed trips
    = map (impute_trip fill med_duration med_distance)
          (drop_duplicates Trip.trip_id trips).
Proof.
  unfold trips_imputed, assign. cbv zeta.
  do 3 eexists. rewrite !map_map. apply map_ext.
  intros []; reflexivity.
Qed.

Lemma trips_valid_filter (trips : list Trip.t) :
  trips_valid trips = filter valid_trip trips.
Proof.
  unfold trips_valid, dropna. cbv zeta. rewrite !filter_filter.
  apply filter_ext. intros r. unfold valid_trip. simpl.
  now rewrite andb_true_r, !andb_assoc.
Qed.

Lemma trips_recomputed_rows (trips : list Trip.t) :
  trips_recomputed trips = map recompute_trip trips.
Proof.
  unfold trips_recomputed, assign. cbv zeta. rewrite map_map.
  apply map_ext. intros []; reflexivity.
Qed.

Lemma clean_trips_rows (trips : list Trip.t) :
  exists fill med_duration med_distance,
    clean_trips trips
    = map recompute_trip
          (filter valid_trip
                  (map (impute_trip fill med_duration med_distance)
                       (drop_duplicates Trip.trip_id trips))).
Proof.
  destruct (trips_imputed_rows trips) as (f & md & mk & E).
  exists f, md, mk. unfold clean_trips.
  now rewrite trips_recomputed_rows, trips_valid_filter, E.
Qed.

Lemma isin_two (c : cell) (a b : string) :
  isin c [a; b] = true -> c = Str a \/ c = Str b.
Proof.
  destruct c; simpl; try discriminate.
  rewrite orb_false_r. intros H. apply orb_true_iff in H as [H|H];
    apply String.eqb_eq in H; subst; auto.
Qed.

Lemma to_numeric_shape (c : cell) :
  to_numeric c = NA \/ exists x, to_numeric c = Num x.
Proof.
  destruct c; simpl; eauto; destruct (parse_numeric _); eauto.
Qed.

Lemma ge0_filled (m : option Q) (c : cell) :
  ge0 (fillna m (to_numeric c)) = true ->
  exists d, fillna m (to_numeric c) = Num d /\ 0 <= d.
Proof.
  destruct (to_numeric_shape c) as [E|[x E]]; rewrite E; simpl.
  - destruct m as [x|]; simpl; [|discriminate].
    unfold ge0; simpl. intros H. exists x. split; [reflexivity|].
    now apply Qle_bool_iff.
  - unfold ge0; simpl. intros H. exists x. split; [reflexivity|].
    now apply Qle_bool_iff.
Qed.

Lemma time_ge_inv (e s : cell) :
  time_ge e s = true -> exists te ts, e = Time te /\ s = Time ts /\ (ts <= te)%Z.
Proof.
  destruct e, s; simpl; try discriminate.
  intros H. apply Z.leb_le in H. eauto.
Qed.

Lemma minutes_nonneg (ts te : Z) :
  (ts <= te)%Z -> 0 <= total_seconds (te - ts) / 60.
Proof.
  intros H. assert (0 <= inject_Z (te - ts)) as H0.
  { assert (0 <= te - ts)%Z as H1 by lia. rewrite Zle_Qle in H1. exact H1. }
  unfold total_seconds, Qdiv.
  apply Qmult_le_0_compat; [apply Qmult_le_0_compat|];
    try assumption; discriminate.
Qed.

Lemma valid_trip_inv (r : Trip.t) :
  valid_trip r = true ->
  time_ge (Trip.end_time r) (Trip.start_time r) = true /\
  ge0 (Trip.duration_minutes r) = true /\
  ge0 (Trip.distance_km r) = true /\
  isin (Trip.user_type r) ["casual"; "member"]%string = true /\
  isin (Trip.bike_type r) ["classic"; "electric"]%string = true /\
  isin (Trip.status r) ["completed"; "cancelled"]%string = true.
Proof.
  unfold valid_trip. rewrite !andb_true_iff. tauto.
Qed.

Lemma recompute_clean (r : Trip.t) (m : option Q) (c : cell) :
  valid_trip r = true ->
  Trip.distance_km r = fillna m (to_numeric c) ->
  clean_trip (recompute_trip r).
Proof.
  intros V Hd. apply valid_trip_inv in V as (Ht & _ & Hk & Hu & Hb & Hs).
  apply time_ge_inv in Ht as (te & ts & Ee & Es & Hle).
  rewrite Hd in Hk. apply ge0_filled in Hk as (d & Ed & Hd0).
  pose proof (minutes_nonneg ts te Hle) as Hm.
  exists ts, te, d. unfold recompute_trip. simpl.
  rewrite Ee, Es. simpl.
  assert (Qle_bool 0 (total_seconds (te - ts) / 60) = true) as ->
      by now apply Qle_bool_iff.
  repeat split; try assumption; try reflexivity.
  - congruence.
  - now apply isin_two.
  - now apply isin_two.
  - now apply isin_two.
Qed.

Lemma clean_trips_clean (trips : list Trip.t) (r : Trip.t) :
  In r (clean_trips trips) -> clean_trip r.
Proof.
  destruct (clean_trips_rows trips) as (f & md & mk & ->).
  intros H. apply in_map_iff in H as (r1 & <- & H).
  apply filter_In in H as [H V].
  apply in_map_iff in H as (r0 & <- & _).
  eapply recompute_clean; [exact V | reflexivity].
Qed.

(** *** Stations *)

Lemma mapM_OK {A B} (f : A -> result B) (l : list A) (l' : list B) :
  mapM f l = OK l' -> Forall2 (fun x y => f x = OK y) l l'.
Proof.
  revert l'. induction l as [|x l IH]; simpl; intros l' H.
  - injection H as <-. constructor.
  - destruct (f x) as [y|] eqn:E; simpl in H; [|discriminate].
    destruct (mapM f l) as [ys|]; simpl in H; [|discriminate].
    injection H as <-. constructor; auto.
Qed.

Lemma clean_stations_rows (stations out : list Station.t) :
  clean_stations stations = OK out ->
  out = filter valid_station
               (map coerce_station
                    (drop_duplicates Station.station_id stations)).
Proof.
  unfold clean_stations. cbv zeta.
  destruct (mapM _ (drop_duplicates Station.station_id stations))
    as [rows|] eqn:E; simpl; [|discriminate].
  intros H. injection H as <-.
  apply mapM_OK in E.
  assert (rows
          = map (fun r0 => Station.set_capacity
                             (capacity_cell (Station.capacity r0)) r0)
                (drop_duplicates Station.station_id stations)) as ->.
  { induction E as [|r0 r l l' H0 _ IH]; simpl; [reflexivity|].
    f_equal; [|exact IH]. unfold capacity_cell.
    destruct (astype_Int64 _) as [c|]; simpl in H0; [|discriminate].
    now injection H0 as <-. }
  unfold dropna, assign. rewrite !filter_filter, !map_map.
  rewrite (map_ext _ coerce_station) by (intros []; reflexivity).
  apply filter_ext. intros r. unfold valid_station. simpl.
  now rewrite andb_true_r, !andb_assoc.
Qed.

Lemma astype_Int64_shape (c c' : cell) :
  astype_Int64 c = OK c' -> c' = NA \/ exists z, c' = Int z.
Proof.
  destruct c; simpl; try discriminate.
  - intros H; injection H as <-; auto.
  - intros H; injection H as <-; eauto.
  - destruct (Qeq_bool _ _); [|discriminate].
    intros H; injection H as <-; eauto.
Qed.

Lemma between_numeric (lo hi : Q) (c : cell) :
  between lo hi (to_numeric c) = true ->
  exists x, to_numeric c = Num x /\ lo <= x /\ x <= hi.
Proof.
  destruct (to_numeric_shape c) as [E|[x E]]; rewrite E; unfold between;
    simpl; [discriminate|].
  intros H. apply andb_true_iff in H as [H1 H2].
  apply Qle_bool_iff in H1, H2. eauto.
Qed.

Lemma capacity_cell_shape (c : cell) :
  capacity_cell c = NA \/ exists z, capacity_cell c = Int z.
Proof.
  unfold capacity_cell.
  destruct (astype_Int64 (to_numeric c)) eqn:E; [|now left].
  eapply astype_Int64_shape; eauto.
Qed.

Lemma valid_station_clean (r0 : Station.t) :
  valid_station (coerce_station r0) = true ->
  clean_station (coerce_station r0).
Proof.
  intros V. pose proof (capacity_cell_shape (Station.capacity r0)) as Hc.
  unfold valid_station in V. simpl in V.
  rewrite !andb_true_iff in V.
  destruct V as (((((((Hi & Hn) & Hcap) & _) & _) & Hg) & Hlat) & Hlon).
  unfold clean_station; simpl. repeat split.
  - intros E; rewrite E in Hi; discriminate.
  - intros E; rewrite E in Hn; discriminate.
  - destruct Hc as [Ec|[z Ec]]; rewrite Ec in *; [discriminate|].
    exists z. split; [reflexivity|].
    unfold gt0 in Hg; simpl in Hg.
    apply negb_true_iff in Hg.
    destruct (Z_lt_le_dec 0 z) as [?|Hz]; [assumption|].
    exfalso. assert (Qle_bool (inject_Z z) 0 = true); [|congruence].
    apply Qle_bool_iff. rewrite Zle_Qle in Hz. exact Hz.
  - now apply between_numeric.
  - now apply between_numeric.
Qed.

Lemma clean_stations_clean (stations out : list Station.t) (r : Station.t) :
  clean_stations stations = OK out -> In r out -> clean_station r.
Proof.
  intros H Hr. apply clean_stations_rows in H as ->.
  apply filter_In in Hr as [Hr V].
  apply in_map_iff in Hr as (r0 & <- & _).
  now apply valid_station_clean.
Qed.

End CleaningFacts.

(** ** Deduplicate, coerce, filter, finish: what any such pipeline keeps *)

Section Pipeline.
Context {R : Type} (key : R -> cell) (f g : R -> R) (p : R -> bool).
Hypothesis key_f : forall x, key (f x) = key x.
Hypothesis key_g : forall x, key (g x) = key x.

Lemma pipeline_length (raw : list R) :
  (List.length (pipeline key f g p raw) <= List.length raw)%nat.
Proof.
  unfold pipeline. rewrite length_map.
  etransitivity; [apply filter_length_le|]. rewrite length_map.
  apply drop_duplicates_from_length.
Qed.

Lemma pipeline_unique (raw : list R) :
  unique_keys (map key (pipeline key f g p raw)).
Proof.
  unfold pipeline. rewrite map_map.
  rewrite (map_ext _ key) by apply key_g.
  apply unique_keys_filter.
  rewrite map_map. rewrite (map_ext _ key) by apply key_f.
  apply drop_duplicates_from_unique.
Qed.

Lemma pipeline_once (raw : list R) (r : R) :
  In r (pipeline key f g p raw) ->
  occurrences (key r) (map key (pipeline key f g p raw)) = 1%nat.
Proof.
  intros H. apply unique_keys_once; [apply pipeline_unique | exact H].
Qed.

Lemma pipeline_first (raw : list R) (r : R) :
  In r (pipeline key f g p raw) ->
  exists l1 r0 l2,
    raw = l1 ++ r0 :: l2 /\ r = g (f r0) /\ p (f r0) = true /\
    forall x, In x l1 -> cell_eqb (key x) (key r0) = false.
Proof.
  unfold pipeline. intros H.
  apply in_map_iff in H as (r1 & <- & H).
  apply filter_In in H as [H V].
  apply in_map_iff in H as (r0 & <- & H).
  apply drop_duplicates_from_first in H as (l1 & l2 & E & Hl1).
  exists l1, r0, l2. auto.
Qed.

End Pipeline.

(** ** Text normalisation settles after one pass *)

Lemma lower_char_idem (c : ascii) : lower_char (lower_char c) = lower_char c.
Proof.
  destruct c as [[] [] [] [] [] [] [] []]; reflexivity.
Qed.

Lemma lower_idem (s : string) : lower (lower s) = lower s.
Proof.
  induction s as [|c s IH]; simpl; [reflexivity|].
  now rewrite lower_char_idem, IH.
Qed.

Lemma lower_lstrip (s : string) : lower s = s -> lower (lstrip s) = lstrip s.
Proof.
  induction s as [|c s IH]; simpl; [reflexivity|].
  intros H. injection H as Hc Hs.
  destruct (is_space c); [now apply IH|].
  simpl. now rewrite Hc, Hs.
Qed.

Lemma lower_rstrip (s : string) : lower s = s -> lower (rstrip s) = rstrip s.
Proof.
  induction s as [|c s IH]; simpl; [reflexivity|].
  intros H. injection H as Hc Hs. specialize (IH Hs).
  destruct (rstrip s) as [|c' r'].
  - destruct (is_space c); simpl; [reflexivity | now rewrite Hc].
  - change (lower (String c (String c' r')))
      with (String (lower_char c) (lower (String c' r'))).
    now rewrite Hc, IH.
Qed.

Lemma rstrip_idem (s : string) : rstrip (rstrip s) = rstrip s.
Proof.
  induction s as [|c s IH]; simpl; [reflexivity|].
  destruct (rstrip s) as [|c' r'] eqn:E.
  - destruct (is_space c) eqn:Ec; simpl; [reflexivity | now rewrite Ec].
  - change (rstrip (String c (String c' r')))
      with (match rstrip (String c' r') with
            | EmptyString =>
                if is_space c then EmptyString else String c EmptyString
            | r'' => String c r''
            end).
    now rewrite IH.
Qed.

Lemma lstrip_head (s : string) (c : ascii) (r : string) :
  lstrip s = String c r -> is_space c = false.
Proof.
  induction s as [|c0 s IH]; simpl; [discriminate|].
  destruct (is_space c0) eqn:E; [exact IH|].
  intros H. now injection H as <- _.
Qed.

Lemma lstrip_rstrip (s : string) : lstrip (rstrip (lstrip s)) = rstrip (lstrip s).
Proof.
  destruct (lstrip s) as [|c r] eqn:E; [reflexivity|].
  pose proof (lstrip_head _ _ _ E) as Hc.
  simpl. destruct (rstrip r); rewrite ?Hc; simpl; now rewrite Hc.
Qed.

Lemma strip_idem (s : string) : strip (strip s) = strip s.
Proof.
  unfold strip. now rewrite lstrip_rstrip, rstrip_idem.
Qed.

Lemma lower_strip (s : string) : lower s = s -> lower (strip s) = strip s.
Proof.
  intros H. unfold strip. now apply lower_rstrip, lower_lstrip.
Qed.

(** ** What the cleaned tables hold *)

Section CleanedTables.
Context {pd : Pandas}.

Lemma maint_valid_rows (maint : list Maintenance.t) :
  maint_valid maint
  = filter valid_maintenance
           (map coerce_maintenance
                (drop_duplicates Maintenance.record_id maint)).
Proof.
  unfold maint_valid, dropna, assign. cbv zeta.
  rewrite !filter_filter, !map_map.
  rewrite (map_ext _ coerce_maintenance) by (intros []; reflexivity).
  apply filter_ext. intros r. unfold valid_maintenance. simpl.
  now rewrite andb_true_r, !andb_assoc.
Qed.

Lemma clean_maintenance_rows (maint : list Maintenance.t) :
  clean_maintenance maint
  = map (fun r => Maintenance.set_cost (imputed_cost (maint_valid maint) r) r)
        (maint_valid maint).
Proof.
  unfold clean_maintenance, impute_cost, assign. cbv zeta.
  rewrite map_map. apply map_ext. intros []; reflexivity.
Qed.

Lemma clean_trips_pipeline (trips : list Trip.t) :
  exists fill med_duration med_distance,
    clean_trips trips
    = pipeline Trip.trip_id (impute_trip fill med_duration med_distance)
               recompute_trip valid_trip trips.
Proof. apply clean_trips_rows. Qed.

Lemma clean_stations_pipeline (stations out : list Station.t) :
  clean_stations stations = OK out ->
  out = pipeline Station.station_id coerce_station (fun r => r) valid_station
                 stations.
Proof.
  intros H. unfold pipeline. rewrite map_id. now apply clean_stations_rows.
Qed.

Lemma clean_maintenance_pipeline (maint : list Maintenance.t) :
  clean_maintenance maint
  = pipeline Maintenance.record_id coerce_maintenance
             (fun r => Maintenance.set_cost
                         (imputed_cost (maint_valid maint) r) r)
             valid_maintenance maint.
Proof.
  rewrite clean_maintenance_rows. unfold pipeline.
  now rewrite maint_valid_rows.
Qed.

(** In each table the cleaned rows are at most as many as the raw ones,
    each key is borne by one cleaned row, and that row is what cleaning
    makes of the first raw row with the key. *)
Lemma cleaned_tables_first_occurrences
      (trips : list Trip.t) (stations out : list Station.t)
      (maint : list Maintenance.t) :
  clean_stations stations = OK out ->
  no_record_created Trip.trip_id trip_of trips (clean_trips trips) /\
  no_record_created Station.station_id station_of stations out /\
  no_record_created Maintenance.record_id maintenance_of maint
                    (clean_maintenance maint).
Proof.
  intros Hs.
  destruct (clean_trips_pipeline trips) as (fl & md & mk & Et).
  pose proof (clean_stations_pipeline _ _ Hs) as Es.
  pose proof (clean_maintenance_pipeline maint) as Em.
  unfold no_record_created. split; [|split].
  - rewrite Et. split; [apply pipeline_length|].
    intros r Hr. split.
    + apply pipeline_once; [intros []; reflexivity .. | exact Hr].
    + apply pipeline_first in Hr as (l1 & r0 & l2 & E & -> & _ & Hl1).
      exists r0. split; [subst; apply in_elt|].
      split; [exists l1, l2; auto|].
      destruct r0; repeat split.
  - rewrite Es. split; [apply pipeline_length|].
    intros r Hr. split.
    + apply pipeline_once; [intros []; reflexivity .. | exact Hr].
    + apply pipeline_first in Hr as (l1 & r0 & l2 & E & -> & _ & Hl1).
      exists r0. split; [subst; apply in_elt|].
      split; [exists l1, l2; auto|].
      destruct r0; repeat split.
  - rewrite Em. split; [apply pipeline_length|].
    intros r Hr. split.
    + apply pipeline_once; [intros []; reflexivity .. | exact Hr].
    + apply pipeline_first in Hr as (l1 & r0 & l2 & E & -> & _ & Hl1).
      exists r0. split; [subst; apply in_elt|].
      split; [exists l1, l2; auto|].
      destruct r0; repeat split.
Qed.

(** *** A cleaned table is a fixed point of cleaning *)

Lemma normalize_text_idem (c : cell) :
  normalize_text (normalize_text c) = normalize_text c.
Proof.
  unfold normalize_text at 1 3. simpl. f_equal.
  rewrite lower_strip by apply lower_idem.
  apply strip_idem.
Qed.

Lemma isna_false (c : cell) : c <> NA -> negb (isna c) = true.
Proof. destruct c; simpl; congruence. Qed.

Lemma impute_trip_fixed fill md mk (r : Trip.t) :
  clean_trip r -> impute_trip fill md mk r = r.
Proof.
  destruct r. unfold clean_trip, impute_trip. simpl.
  intros (ts & te & d & -> & -> & _ & -> & _ & _ & -> & _ & Hu & Hb & Hs).
  destruct Hu as [-> | ->], Hb as [-> | ->], Hs as [-> | ->]; reflexivity.
Qed.

Lemma valid_trip_fixed (r : Trip.t) : clean_trip r -> valid_trip r = true.
Proof.
  destruct r. unfold clean_trip, valid_trip. simpl.
  intros (ts & te & d & -> & -> & Hle & -> & _ & Hm & -> & Hd & Hu & Hb & Hs).
  apply Z.leb_le in Hle. apply Qle_bool_iff in Hm, Hd.
  unfold ge0. simpl. rewrite Hle, Hm, Hd.
  destruct Hu as [-> | ->], Hb as [-> | ->], Hs as [-> | ->]; reflexivity.
Qed.

Lemma recompute_trip_fixed (r : Trip.t) : clean_trip r -> recompute_trip r = r.
Proof.
  destruct r. unfold clean_trip, recompute_trip. simpl.
  intros (ts & te & d & -> & -> & _ & -> & _ & Hm & _).
  apply Qle_bool_iff in Hm. unfold Trip.set_duration_minutes. simpl.
  now rewrite Hm.
Qed.

Lemma clean_trips_fixed (l : list Trip.t) :
  (forall r, In r l -> clean_trip r) ->
  unique_keys (map Trip.trip_id l) ->
  clean_trips l = l.
Proof.
  intros Hc Hu. destruct (clean_trips_rows l) as (f & md & mk & ->).
  rewrite drop_duplicates_id by assumption.
  rewrite (map_id_on (impute_trip f md mk))
    by (intros; now apply impute_trip_fixed, Hc).
  rewrite filter_id_on by (intros; now apply valid_trip_fixed, Hc).
  apply map_id_on. intros; now apply recompute_trip_fixed, Hc.
Qed.

Lemma clean_trips_unique (trips : list Trip.t) :
  unique_keys (map Trip.trip_id (clean_trips trips)).
Proof.
  destruct (clean_trips_pipeline trips) as (f & md & mk & ->).
  apply pipeline_unique; intros []; reflexivity.
Qed.

Lemma clean_trips_idem (trips : list Trip.t) :
  clean_trips (clean_trips trips) = clean_trips trips.
Proof.
  apply clean_trips_fixed; [apply clean_trips_clean | apply clean_trips_unique].
Qed.

Lemma cast_Int (z : Z) : astype_Int64 (to_numeric (Int z)) = OK (Int z).
Proof.
  unfold astype_Int64, to_numeric. now rewrite Qfloor_Z, Qeq_bool_refl.
Qed.

Lemma capacity_cell_Int (z : Z) : capacity_cell (Int z) = Int z.
Proof.
  unfold capacity_cell. now rewrite cast_Int.
Qed.

Lemma coerce_station_fixed (r : Station.t) :
  clean_station r -> coerce_station r = r.
Proof.
  destruct r. unfold clean_station, coerce_station. simpl.
  intros (_ & _ & (z & -> & _) & (x & -> & _) & (y & -> & _)).
  now rewrite capacity_cell_Int.
Qed.

Lemma valid_station_fixed (r : Station.t) :
  clean_station r -> valid_station r = true.
Proof.
  destruct r. unfold clean_station, valid_station. simpl.
  intros (Hi & Hn & (z & -> & Hz) & (x & -> & Hx1 & Hx2)
          & (y & -> & Hy1 & Hy2)).
  rewrite !isna_false by assumption.
  apply Qle_bool_iff in Hx1, Hx2, Hy1, Hy2.
  unfold between, gt0. simpl. rewrite Hx1, Hx2, Hy1, Hy2. simpl.
  destruct (Qle_bool (inject_Z z) 0) eqn:E; [|reflexivity].
  apply Qle_bool_iff in E. change 0 with (inject_Z 0) in E.
  rewrite <- Zle_Qle in E. lia.
Qed.

Lemma mapM_fixed {A} (f : A -> result A) (l : list A) :
  (forall x, In x l -> f x = OK x) -> mapM f l = OK l.
Proof.
  induction l as [|x l IH]; simpl; intros H; [reflexivity|].
  rewrite H by now left. simpl. rewrite IH; [reflexivity|].
  intros; apply H; now right.
Qed.

Lemma clean_stations_fixed (l : list Station.t) :
  (forall r, In r l -> clean_station r) ->
  unique_keys (map Station.station_id l) ->
  clean_stations l = OK l.
Proof.
  intros Hc Hu.
  assert (exists out, clean_stations l = OK out) as [out E].
  { unfold clean_stations. cbv zeta.
    rewrite drop_duplicates_id by assumption.
    rewrite mapM_fixed; [simpl; eauto|].
    intros r Hr. destruct (Hc r Hr) as (_ & _ & (z & Ez & _) & _).
    rewrite Ez, cast_Int. simpl.
    destruct r; simpl in *. now rewrite Ez. }
  rewrite E. f_equal. apply clean_stations_rows in E as ->.
  rewrite drop_duplicates_id by assumption.
  rewrite (map_id_on coerce_station)
    by (intros; now apply coerce_station_fixed, Hc).
  apply filter_id_on. intros; now apply valid_station_fixed, Hc.
Qed.

Lemma clean_stations_unique (stations out : list Station.t) :
  clean_stations stations = OK out ->
  unique_keys (map Station.station_id out).
Proof.
  intros H. rewrite (clean_stations_pipeline _ _ H).
  apply pipeline_unique; intros []; reflexivity.
Qed.

Lemma clean_stations_idem (stations out : list Station.t) :
  clean_stations stations = OK out -> clean_stations out = OK out.
Proof.
  intros H. apply clean_stations_fixed.
  - intros r. now apply (clean_stations_clean stations).
  - now apply (clean_stations_unique stations).
Qed.

(** *** Maintenance *)

Lemma insert_sorted_length (x : Q) (l : list Q) :
  List.length (insert_sorted x l) = S (List.length l).
Proof.
  induction l as [|y l IH]; simpl; [reflexivity|].
  destruct (Qle_bool x y); simpl; [reflexivity | now rewrite IH].
Qed.

Lemma sort_numbers_length (l : list Q) :
  List.length (sort_numbers l) = List.length l.
Proof.
  induction l as [|x l IH]; simpl; [reflexivity|].
  unfold sort_numbers in *. simpl. now rewrite insert_sorted_length, IH.
Qed.

Lemma median_None (col : list cell) :
  median col = None <-> numbers col = [].
Proof.
  unfold median. pose proof (sort_numbers_length (numbers col)) as L.
  destruct (numbers col) as [|x l]; [simpl; tauto|].
  destruct (sort_numbers (x :: l)) as [|y s]; [discriminate L|].
  split; [|discriminate]. simpl List.length.
  destruct (Nat.even _); discriminate.
Qed.

Lemma numbers_all_NA (col : list cell) :
  (forall c, In c col -> c = NA) -> numbers col = [].
Proof.
  induction col as [|c col IH]; simpl; intros H; [reflexivity|].
  rewrite (H c) by now left. simpl. apply IH. intros; apply H; now right.
Qed.

Lemma numbers_nil_Num (col : list cell) (x : Q) :
  numbers col = [] -> ~ In (Num x) col.
Proof.
  induction col as [|c col IH]; simpl; intros H HI; [exact HI|].
  destruct HI as [E|E].
  - subst. discriminate.
  - destruct (number c); [discriminate | now apply IH].
Qed.

Lemma maint_valid_shape (maint : list Maintenance.t) (r : Maintenance.t) :
  In r (maint_valid maint) ->
  valid_maintenance r = true /\
  exists r0, In r0 maint /\ r = coerce_maintenance r0.
Proof.
  rewrite maint_valid_rows. intros H.
  apply filter_In in H as [H V]. split; [exact V|].
  apply in_map_iff in H as (r0 & <- & H).
  apply drop_duplicates_from_In in H. eauto.
Qed.

Lemma valid_maintenance_clean (r0 : Maintenance.t) (v : cell) :
  valid_maintenance (coerce_maintenance r0) = true ->
  (v = NA \/ exists x, v = Num x) ->
  clean_record (Maintenance.set_cost v (coerce_maintenance r0)).
Proof.
  unfold valid_maintenance. simpl. rewrite !andb_true_iff.
  intros (((((Hi & Hb) & _) & Hd) & _) & Ht) Hv.
  unfold clean_record. simpl. repeat split.
  - intros E; rewrite E in Hi; discriminate.
  - intros E; rewrite E in Hb; discriminate.
  - now apply isin_two.
  - destruct (Maintenance.date r0); simpl in *; try discriminate; eauto;
      destruct (parse_datetime _); simpl in *; try discriminate; eauto.
  - eauto.
  - exact Hv.
Qed.

Lemma fillna_shape (m : option Q) (c : cell) :
  (c = NA \/ exists x, c = Num x) ->
  fillna m c = NA \/ exists x, fillna m c = Num x.
Proof.
  intros [->|[x ->]]; simpl; [destruct m|]; eauto.
Qed.

Lemma clean_maintenance_clean (maint : list Maintenance.t)
      (r : Maintenance.t) :
  In r (clean_maintenance maint) -> clean_record r.
Proof.
  rewrite clean_maintenance_rows. intros H.
  apply in_map_iff in H as (r1 & <- & H).
  apply maint_valid_shape in H as (V & r0 & _ & ->).
  apply valid_maintenance_clean; [exact V|].
  unfold imputed_cost. apply fillna_shape, fillna_shape.
  simpl. apply to_numeric_shape.
Qed.

Lemma clean_maintenance_settled (maint : list Maintenance.t) :
  costs_settled (clean_maintenance maint).
Proof.
  rewrite clean_maintenance_rows. unfold costs_settled.
  destruct (median (map Maintenance.cost (maint_valid maint)))
    as [m|] eqn:Em.
  - right. intros r H. apply in_map_iff in H as (r1 & <- & H).
    apply maint_valid_shape in H as (_ & r0 & _ & ->).
    simpl. unfold imputed_cost. rewrite Em.
    destruct (fillna_shape
                (median (group_costs (maint_valid maint)
                           (Maintenance.bike_type (coerce_maintenance r0))))
                (Maintenance.cost (coerce_maintenance r0))
                (to_numeric_shape _)) as [E|[x E]]; rewrite E; simpl; eauto.
  - left. intros r H. apply in_map_iff in H as (r1 & <- & H).
    apply median_None in Em.
    assert (Maintenance.cost r1 = NA) as E1.
    { destruct (maint_valid_shape _ _ H) as (_ & r0 & _ & E0).
      assert (Maintenance.cost r1 = to_numeric (Maintenance.cost r0)) as Ec
          by (subst; reflexivity).
      destruct (to_numeric_shape (Maintenance.cost r0)) as [E|[x E]];
        [congruence|].
      exfalso. apply (numbers_nil_Num _ x Em).
      apply in_map_iff. exists r1. split; [congruence | exact H]. }
    simpl. unfold imputed_cost. rewrite E1.
    assert (median (group_costs (maint_valid maint) (Maintenance.bike_type r1))
            = None) as ->.
    { apply median_None, numbers_all_NA. unfold group_costs.
      intros c Hc. apply in_map_iff in Hc as (r2 & <- & Hr2).
      apply filter_In in Hr2 as [Hr2 _].
      destruct (maint_valid_shape _ _ Hr2) as (_ & r0 & _ & E0).
      destruct (to_numeric_shape (Maintenance.cost r0)) as [E|[x E]];
        [subst; exact E|].
      exfalso. apply (numbers_nil_Num _ x Em).
      apply in_map_iff. exists r2. split; [subst; exact E | exact Hr2]. }
    apply median_None in Em. now rewrite Em.
Qed.

Lemma coerce_maintenance_fixed (r : Maintenance.t) :
  clean_record r -> coerce_maintenance r = r.
Proof.
  destruct r. unfold clean_record, coerce_maintenance. simpl.
  intros (_ & _ & Hb & (t & ->) & (c & ->) & Hc).
  rewrite normalize_text_idem.
  destruct Hb as [-> | ->], Hc as [-> | [x ->]]; reflexivity.
Qed.

Lemma valid_maintenance_fixed (r : Maintenance.t) :
  clean_record r -> valid_maintenance r = true.
Proof.
  destruct r. unfold clean_record, valid_maintenance. simpl.
  intros (Hi & Hb & Ht & (t & ->) & (c & ->) & _).
  rewrite !isna_false by assumption.
  destruct Ht as [-> | ->]; reflexivity.
Qed.

Lemma imputed_cost_settled (l : list Maintenance.t) (r : Maintenance.t) :
  costs_settled l -> In r l -> imputed_cost l r = Maintenance.cost r.
Proof.
  intros [H|H] Hr; unfold imputed_cost.
  - assert (median (map Maintenance.cost l) = None) as ->.
    { apply median_None, numbers_all_NA. intros c Hc.
      apply in_map_iff in Hc as (r' & <- & Hr'). now apply H. }
    assert (median (group_costs l (Maintenance.bike_type r)) = None) as ->.
    { apply median_None, numbers_all_NA. unfold group_costs. intros c Hc.
      apply in_map_iff in Hc as (r' & <- & Hr').
      apply filter_In in Hr' as [Hr' _]. now apply H. }
    now rewrite (H r Hr).
  - destruct (H r Hr) as (x & ->). reflexivity.
Qed.

Lemma clean_maintenance_fixed (l : list Maintenance.t) :
  (forall r, In r l -> clean_record r) ->
  unique_keys (map Maintenance.record_id l) ->
  costs_settled l ->
  clean_maintenance l = l.
Proof.
  intros Hc Hu Hs.
  assert (maint_valid l = l) as E.
  { rewrite maint_valid_rows, drop_duplicates_id by assumption.
    rewrite (map_id_on coerce_maintenance)
      by (intros; now apply coerce_maintenance_fixed, Hc).
    apply filter_id_on. intros; now apply valid_maintenance_fixed, Hc. }
  rewrite clean_maintenance_rows, E.
  apply map_id_on. intros r Hr. rewrite imputed_cost_settled by assumption.
  now destruct r.
Qed.

Lemma clean_maintenance_unique (maint : list Maintenance.t) :
  unique_keys (map Maintenance.record_id (clean_maintenance maint)).
Proof.
  rewrite clean_maintenance_pipeline.
  apply pipeline_unique; intros []; reflexivity.
Qed.

Lemma clean_maintenance_idem (maint : list Maintenance.t) :
  clean_maintenance (clean_maintenance maint) = clean_maintenance maint.
Proof.
  apply clean_maintenance_fixed.
  - apply clean_maintenance_clean.
  - apply clean_maintenance_unique.
  - apply clean_maintenance_settled.
Qed.

End CleanedTables.

Section SampleRuns.
Existing Instance typed_pandas.

Example clean_sample_trips :
  map Trip.trip_id (clean_trips sample_trips) = [Str "TR1"; Str "TR2"].
Proof. vm_compute. reflexivity. Qed.

Example clean_sample_trips_first :
  hd_error (clean_trips sample_trips)
  = Some (Trip.mk (Str "TR1") (Str "U2") (Str "casual") (Str "B1")
                  (Str "classic") (Str "A") (Str "B") (Time t0)
                  (Time (t0 + 10 * minute)) (Num (600000000000 # 60000000000))
                  (Num 2.5) (Str "completed")).
Proof. vm_compute. reflexivity. Qed.

Example clean_sample_stations :
  clean_stations sample_stations
  = OK [ Station.mk (Str "A") (Str "Central Station") (Int 20) (Num 48.8)
                    (Num 9.2);
         Station.mk (Str "B") (Str "City Hall") (Int 15) (Num 48.76)
                    (Num (9 # 1)) ].
Proof. vm_compute. reflexivity. Qed.

Example clean_sample_maintenance :
  map (fun r => (Maintenance.record_id r, Maintenance.cost r))
      (clean_maintenance sample_maintenance)
  = [ (Str "MR1", Num 10); (Str "MR2", Num ((10 + 30) / 2));
      (Str "MR3", Num 30); (Str "MR4", Num ((10 + 30) / 2)) ].
Proof. vm_compute. reflexivity. Qed.

End SampleRuns.

(** ** [clean_data] *)

Section CleanDataClaims.
Context {pd : Pandas}.

(** [clean_data] succeeds exactly when the three tables are loaded and the
    capacity cast goes through, and then stores the three cleaned tables. *)
Lemma clean_data_OK (self self' : BikeShareSystem.t) :
  BikeShareSystem.clean_data self = (OK tt, self') ->
  exists trips stations maint stations',
    BikeShareSystem.trips self = Some trips /\
    BikeShareSystem.stations self = Some stations /\
    BikeShareSystem.maintenance self = Some maint /\
    clean_stations stations = OK stations' /\
    self' = BikeShareSystem.mk (Some (clean_trips trips)) (Some stations')
                               (Some (clean_maintenance maint)).
Proof.
  unfold BikeShareSystem.clean_data.
  destruct (BikeShareSystem.trips self) as [t|]; [|discriminate].
  destruct (BikeShareSystem.stations self) as [s|]; [|discriminate].
  destruct (BikeShareSystem.maintenance self) as [m|]; [|discriminate].
  destruct (clean_stations s) as [s'|] eqn:E; [|discriminate].
  intros H. injection H as <-. exists t, s, m, s'. auto.
Qed.

(** C1: every record of the trips table that [clean_data] stores has its
    end at or after its start, a distance of at least 0, a user type, a
    bike type and a status from the valid sets, and a duration that is the
    minutes from start to end clipped at 0, whatever the raw duration
    was. *)
Theorem cleaned_trips_schema
        (self self' : BikeShareSystem.t) (df : list Trip.t) (r : Trip.t) :
  BikeShareSystem.clean_data self = (OK tt, self') ->
  BikeShareSystem.trips self' = Some df ->
  In r df ->
  exists ts te d,
    Trip.start_time r = Time ts /\ Trip.end_time r = Time te /\
    (ts <= te)%Z /\
    Trip.duration_minutes r = Num (total_seconds (te - ts) / 60) /\
    Trip.duration_minutes r
    = clip_lower0 (minutes_between (Trip.end_time r) (Trip.start_time r)) /\
    0 <= total_seconds (te - ts) / 60 /\
    Trip.distance_km r = Num d /\ 0 <= d /\
    (Trip.user_type r = Str "casual" \/ Trip.user_type r = Str "member") /\
    (Trip.bike_type r = Str "classic" \/ Trip.bike_type r = Str "electric") /\
    (Trip.status r = Str "completed" \/ Trip.status r = Str "cancelled").
Proof.
  intros H Hdf Hr.
  apply clean_data_OK in H as (t & s & m & s' & _ & _ & _ & _ & ->).
  simpl in Hdf. injection Hdf as <-.
  exact (clean_trips_clean t r Hr).
Qed.


(** C6: cleaning is idempotent.  Run on the tables an earlier run has
    stored, [clean_data] succeeds and stores the same three tables. *)
Theorem clean_data_idempotent (self self' : BikeShareSystem.t) :
  BikeShareSystem.clean_data self = (OK tt, self') ->
  BikeShareSystem.clean_data self' = (OK tt, self').
Proof.
  intros H.
  apply clean_data_OK in H as (t & s & m & s' & _ & _ & _ & Hs & ->).
  unfold BikeShareSystem.clean_data. simpl.
  rewrite (clean_stations_idem _ _ Hs).
  now rewrite clean_trips_idem, clean_maintenance_idem.
Qed.

(** C9: the cost of a maintenance record.  With [dataset] the maintenance
    table once deduplicated, coerced and filtered (lines 88-94), the
    stored table is [dataset] with each cost imputed; a cost that is there
    is kept; a missing cost becomes the median of the costs that are
    there among the rows of the same bike type; when that group has none,
    it becomes the median of the costs that are there in the whole
    dataset, and stays missing (it is not set to zero) when the dataset
    has none either.  Nothing is raised on the way. *)
Theorem maintenance_cost_imputation
        (self self' : BikeShareSystem.t) (raw : list Maintenance.t) :
  BikeShareSystem.clean_data self = (OK tt, self') ->
  BikeShareSystem.maintenance self = Some raw ->
  let dataset := maint_valid raw in
  BikeShareSystem.maintenance self'
  = Some (map (fun r => Maintenance.set_cost (imputed_cost dataset r) r)
              dataset) /\
  forall r, In r dataset ->
    let group := group_costs dataset (Maintenance.bike_type r) in
    let overall := map Maintenance.cost dataset in
    (Maintenance.cost r <> NA -> imputed_cost dataset r = Maintenance.cost r) /\
    (Maintenance.cost r = NA -> numbers group <> [] ->
     exists m, median group = Some m /\ imputed_cost dataset r = Num m) /\
    (Maintenance.cost r = NA -> numbers group = [] -> numbers overall <> [] ->
     exists m, median overall = Some m /\ imputed_cost dataset r = Num m) /\
    (Maintenance.cost r = NA -> numbers group = [] -> numbers overall = [] ->
     imputed_cost dataset r = NA).
Proof.
  intros H Hraw dataset.
  apply clean_data_OK in H as (t & s & m & s' & _ & _ & Hm & _ & ->).
  rewrite Hraw in Hm. injection Hm as <-. simpl.
  split; [now rewrite clean_maintenance_rows|].
  intros r Hr. cbv zeta. unfold imputed_cost.
  set (group := group_costs dataset (Maintenance.bike_type r)).
  set (overall := map Maintenance.cost dataset).
  repeat split.
  - intros Hc. destruct (Maintenance.cost r); try congruence;
      destruct (median group), (median overall); reflexivity.
  - intros -> Hg. destruct (median group) as [x|] eqn:E.
    + exists x. split; [reflexivity|]. simpl. now destruct (median overall).
    + apply median_None in E. contradiction.
  - intros -> Hg Ho. apply median_None in Hg. rewrite Hg. simpl.
    destruct (median overall) as [x|] eqn:E.
    + exists x. split; reflexivity.
    + apply median_None in E. contradiction.
  - intros -> Hg Ho. apply median_None in Hg, Ho. now rewrite Hg, Ho.
Qed.

(** C10: cleaning creates no record.  In each of the three tables
    [clean_data] stores, the rows are at most as many as in the raw table,
    every key appears exactly once, and the row that bears it is what
    cleaning makes of the first raw row with that key. *)
Theorem cleaning_creates_no_record (self self' : BikeShareSystem.t) :
  BikeShareSystem.clean_data self = (OK tt, self') ->
  exists trips stations maint trips' stations' maint',
    BikeShareSystem.trips self = Some trips /\
    BikeShareSystem.stations self = Some stations /\
    BikeShareSystem.maintenance self = Some maint /\
    BikeShareSystem.trips self' = Some trips' /\
    BikeShareSystem.stations self' = Some stations' /\
    BikeShareSystem.maintenance self' = Some maint' /\
    no_record_created Trip.trip_id trip_of trips trips' /\
    no_record_created Station.station_id station_of stations stations' /\
    no_record_created Maintenance.record_id maintenance_of maint maint'.
Proof.
  intros H.
  apply clean_data_OK in H as (t & s & m & s' & Ht & Hs & Hm & Hc & ->).
  exists t, s, m, (clean_trips t), s', (clean_maintenance m). simpl.
  repeat (split; [assumption || reflexivity|]).
  exact (cleaned_tables_first_occurrences t s s' m Hc).
Qed.

End CleanDataClaims.

Section CleanDataRuns.
Existing Instance typed_pandas.

Lemma sample_clean_data :
  BikeShareSystem.clean_data sample_system = (OK tt, sample_cleaned).
Proof. vm_compute. reflexivity. Qed.

Lemma cleaned_trips_schema_witness :
  In first_clean_trip (clean_trips sample_trips) /\
  exists ts te,
    Trip.start_time first_clean_trip = Time ts /\
    Trip.end_time first_clean_trip = Time te /\
    (ts <= te)%Z /\
    Trip.duration_minutes first_clean_trip
    = Num (total_seconds (te - ts) / 60).
Proof.
  assert (In first_clean_trip (clean_trips sample_trips)) as Hin
      by (vm_compute; left; reflexivity).
  split; [exact Hin|].
  destruct (cleaned_trips_schema sample_system sample_cleaned
              (clean_trips sample_trips) first_clean_trip)
    as (ts & te & d & Hs & He & Hle & Hd & _).
  - vm_compute. reflexivity.
  - vm_compute. reflexivity.
  - exact Hin.
  - exists ts, te. auto.
Defined.



Lemma clean_data_idempotent_witness :
  BikeShareSystem.clean_data sample_cleaned = (OK tt, sample_cleaned).
Proof.
  apply (clean_data_idempotent sample_system).
  vm_compute. reflexivity.
Defined.

Lemma maintenance_cost_imputation_witness :
  In electric_record (maint_valid sample_maintenance) /\
  exists m,
    median (map Maintenance.cost (maint_valid sample_maintenance)) = Some m /\
    imputed_cost (maint_valid sample_maintenance) electric_record = Num m.
Proof.
  assert (In electric_record (maint_valid sample_maintenance)) as Hin
      by (vm_compute; do 3 right; left; reflexivity).
  split; [exact Hin|].
  destruct (maintenance_cost_imputation sample_system sample_cleaned
                                        sample_maintenance)
    as [_ H].
  - vm_compute. reflexivity.
  - reflexivity.
  - destruct (H electric_record Hin) as (_ & _ & H3 & _).
    apply H3.
    + reflexivity.
    + vm_compute. reflexivity.
    + vm_compute. discriminate.
Defined.

Lemma cleaning_creates_no_record_witness :
  exists trips stations maint trips' stations' maint',
    BikeShareSystem.trips sample_system = Some trips /\
    BikeShareSystem.stations sample_system = Some stations /\
    BikeShareSystem.maintenance sample_system = Some maint /\
    BikeShareSystem.trips sample_cleaned = Some trips' /\
    BikeShareSystem.stations sample_cleaned = Some stations' /\
    BikeShareSystem.maintenance sample_cleaned = Some maint' /\
    no_record_created Trip.trip_id trip_of trips trips' /\
    no_record_created Station.station_id station_of stations stations' /\
    no_record_created Maintenance.record_id maintenance_of maint maint'.
Proof.
  apply (cleaning_creates_no_record sample_system sample_cleaned).
  vm_compute. reflexivity.
Defined.

End CleanDataRuns.

(** ** The analytics operations: guards and stored tables *)

Section Guards.
Import BikeShareSystem.
Context {pd : Pandas} {acc : Accessors}.

Lemma quiet_OK {A} (a : A) : quiet (OK a).
Proof. intros [msg H]; discriminate. Qed.

Lemma quiet_Raise {A B} (e : error) :
  quiet (@Raise A e) -> quiet (@Raise B e).
Proof.
  intros H [msg E]. apply H. exists msg. congruence.
Qed.

Lemma quiet_bind {A B} (r : result A) (f : A -> result B) :
  quiet r -> (forall a, quiet (f a)) -> quiet (bind r f).
Proof.
  intros Hr Hf. destruct r as [a|e]; simpl;
    [apply Hf | now apply (quiet_Raise (A:=A))].
Qed.

Lemma quiet_mapM {A B} (f : A -> result B) (l : list A) :
  (forall x, quiet (f x)) -> quiet (mapM f l).
Proof.
  intros Hf. induction l as [|x l IH]; simpl; [apply quiet_OK|].
  apply quiet_bind; [apply Hf|]. intros y.
  apply quiet_bind; [exact IH|]. intros ys. apply quiet_OK.
Qed.

Lemma quiet_sum_col (col : list cell) : quiet (sum_col col).
Proof.
  induction col as [|c col IH]; simpl; [apply quiet_OK|].
  destruct c; simpl; try exact IH;
    try (apply quiet_bind; [exact IH | intros; apply quiet_OK]);
    intros [msg H]; discriminate.
Qed.

Lemma quiet_mean_col (col : list cell) : quiet (mean_col col).
Proof.
  unfold mean_col. apply quiet_bind; [apply quiet_sum_col|].
  intros s. destruct (count_col col); apply quiet_OK.
Qed.

Lemma quiet_dt_map (f : Z -> cell) (col : list cell) : quiet (dt_map f col).
Proof.
  induction col as [|c col IH]; simpl; [apply quiet_OK|].
  destruct c; simpl;
    try (apply quiet_bind; [exact IH | intros; apply quiet_OK]);
    intros [msg H]; discriminate.
Qed.

Lemma quiet_times (col : list cell) : quiet (times col).
Proof.
  induction col as [|c col IH]; simpl; [apply quiet_OK|].
  destruct c; simpl; try exact IH;
    try (apply quiet_bind; [exact IH | intros; apply quiet_OK]);
    intros [msg H]; discriminate.
Qed.

Lemma quiet_window_minutes (df : list Trip.t) : quiet (window_minutes df).
Proof.
  unfold window_minutes, max_time, min_time.
  repeat (apply quiet_bind; [try apply quiet_times | intros]);
    repeat match goal with
           | |- quiet (match ?x with _ => _ end) => destruct x
           end;
    try apply quiet_OK.
Qed.

Lemma quiet_py_div (a b : Q) : quiet (py_div a b).
Proof.
  unfold py_div. destruct (Qeq_bool b 0); [|apply quiet_OK].
  intros [msg H]; discriminate.
Qed.

Lemma quiet_to_numpy (col : list cell) : quiet (to_numpy col).
Proof.
  unfold to_numpy. destruct (asarray_float col); [apply quiet_OK|].
  intros [msg H]; discriminate.
Qed.

Lemma quiet_segment_revenue df utype a b c :
  quiet (segment_revenue df utype a b c).
Proof.
  unfold segment_revenue.
  repeat (apply quiet_bind; [apply quiet_to_numpy | intros]).
  apply quiet_OK.
Qed.

Lemma reads_only_ret {A} (a : A) : reads_only (ret a).
Proof. intros self; reflexivity. Qed.

Lemma reads_only_lift {A} (r : result A) : reads_only (lift r).
Proof. intros self; reflexivity. Qed.

Lemma reads_only__trips : reads_only _trips.
Proof. intros self; unfold _trips; now destruct (trips self). Qed.

Lemma reads_only__stations : reads_only _stations.
Proof. intros self; unfold _stations; now destruct (stations self). Qed.

Lemma reads_only__maint : reads_only _maint.
Proof. intros self; unfold _maint; now destruct (maintenance self). Qed.

Lemma reads_only_bind {A B} (m : M A) (f : A -> M B) :
  reads_only m -> (forall a, reads_only (f a)) -> reads_only (bindM m f).
Proof.
  intros Hm Hf self. unfold bindM. specialize (Hm self).
  destruct (m self) as [[a|e] self']; simpl in *; subst; [apply Hf|reflexivity].
Qed.

Lemma guards_only_ret {A} (a : A) : guards_only (ret a).
Proof. intros self _. apply quiet_OK. Qed.

Lemma guards_only_lift {A} (r : result A) : quiet r -> guards_only (lift r).
Proof. intros H self _. exact H. Qed.

Lemma guards_only__trips : guards_only _trips.
Proof.
  intros self (H & _ & _). unfold _trips.
  destruct (trips self); [apply quiet_OK | congruence].
Qed.

Lemma guards_only__stations : guards_only _stations.
Proof.
  intros self (_ & H & _). unfold _stations.
  destruct (stations self); [apply quiet_OK | congruence].
Qed.

Lemma guards_only__maint : guards_only _maint.
Proof.
  intros self (_ & _ & H). unfold _maint.
  destruct (maintenance self); [apply quiet_OK | congruence].
Qed.

Lemma guards_only_bind {A B} (m : M A) (f : A -> M B) :
  reads_only m -> guards_only m -> (forall a, guards_only (f a)) ->
  guards_only (bindM m f).
Proof.
  intros Hr Hm Hf self Hl. unfold bindM.
  specialize (Hr self). specialize (Hm self Hl).
  destruct (m self) as [[a|e] self']; simpl in *; subst;
    [now apply Hf | now apply (quiet_Raise (A:=A))].
Qed.

Create HintDb analytics.
#[local] Hint Resolve reads_only_ret reads_only_lift reads_only__trips
     reads_only__stations reads_only__maint
     guards_only_ret guards_only__trips guards_only__stations
     guards_only__maint quiet_OK quiet_sum_col quiet_mean_col quiet_dt_map
     quiet_window_minutes quiet_py_div quiet_to_numpy quiet_segment_revenue
  : analytics.

Ltac step_method :=
  repeat first
    [ solve [auto with analytics]
    | apply reads_only_bind; [auto with analytics | intros]
    | apply guards_only_bind; [auto with analytics | auto with analytics | intros]
    | apply guards_only_lift
    | apply quiet_bind; [auto with analytics | intros]
    | apply quiet_mapM; intros
    | match goal with
      | |- reads_only (match ?x with _ => _ end) => destruct x
      | |- guards_only (match ?x with _ => _ end) => destruct x
      | |- reads_only (if ?x then _ else _) => destruct x
      | |- guards_only (if ?x then _ else _) => destruct x
      end ].

Lemma run_reads_only (q : query) : reads_only (run q).
Proof.
  destruct q; simpl;
    unfold total_trips_summary, top_start_stations, top_end_stations,
      peak_usage_hours, busiest_day_of_week, avg_distance_by_user_type,
      bike_utilization_rate, monthly_trip_trend, top_active_users,
      maintenance_cost_by_bike_type, top_routes, trip_completion_rate,
      avg_trips_per_user_by_type, bikes_highest_maintenance_frequency,
      outlier_trips, revenue_by_user_type;
    step_method.
Qed.

Lemma run_guards_only (q : query) : guards_only (run q).
Proof.
  destruct q; simpl;
    unfold total_trips_summary, top_start_stations, top_end_stations,
      peak_usage_hours, busiest_day_of_week, avg_distance_by_user_type,
      bike_utilization_rate, monthly_trip_trend, top_active_users,
      maintenance_cost_by_bike_type, top_routes, trip_completion_rate,
      avg_trips_per_user_by_type, bikes_highest_maintenance_frequency,
      outlier_trips, revenue_by_user_type;
    step_method.
Qed.

Lemma run_not_loaded (q : query) (self : t) :
  first_table q self = false -> not_loaded_error (fst (run q self)).
Proof.
  destruct q; simpl;
    unfold total_trips_summary, top_start_stations, top_end_stations,
      peak_usage_hours, busiest_day_of_week, avg_distance_by_user_type,
      bike_utilization_rate, monthly_trip_trend, top_active_users,
      maintenance_cost_by_bike_type, top_routes, trip_completion_rate,
      avg_trips_per_user_by_type, bikes_highest_maintenance_frequency,
      outlier_trips, revenue_by_user_type, bindM, _trips, _maint;
    intros H;
    match type of H with
    | context [match ?x with _ => _ end] => destruct x
    end; try discriminate; eexists; reflexivity.
Qed.

End Guards.

(** ** The utilization rate *)

Section Utilization.
Import BikeShareSystem.










End Utilization.

(** ** Rankings *)




Section Sorting.
Context {A : Type} (key : A -> nat).







End Sorting.











Section AnalyticsClaims.
Import BikeShareSystem.
Context {pd : Pandas} {acc : Accessors}.

(** C2, amended: every analytics operation leaves the stored tables as
    they are; it fails with the precondition error ("... not loaded")
    when the table it asks for first is not stored, so always on a fresh
    system; and once the three tables are loaded it raises no
    precondition error, whether [clean_data] has run or not. *)
Theorem queries_guarded_read_only (q : query) (self : t) :
  snd (run q self) = self /\
  (first_table q self = false -> not_loaded_error (fst (run q self))) /\
  not_loaded_error (fst (run q init)) /\
  (loaded self -> ~ not_loaded_error (fst (run q self))).
Proof.
  split; [apply run_reads_only | split; [apply run_not_loaded | split]].
  - apply run_not_loaded. now destruct q.
  - apply run_guards_only.
Qed.






End AnalyticsClaims.

Section AnalyticsRuns.
Import BikeShareSystem.
Existing Instance typed_pandas.
Existing Instance sample_accessors.

Example sample_periods :
  map dt_to_period_M [0; t0; 1709251200000000000; 951782400000000000]%Z
  = [0; 648; 650; 361]%Z.
Proof. vm_compute. reflexivity. Qed.

Example sample_day_and_hour :
  (dt_day_name t0, dt_hour t0) = ("Monday"%string, 8%Z).
Proof. vm_compute. reflexivity. Qed.

(** C2, as the claim has it, fails: after [load_data] and before
    [clean_data] the summary is computed on the raw table (five rows,
    the duplicate and the invalid ones included); no precondition error
    is raised. *)
Lemma summary_runs_before_cleaning :
  snd (load_data sample_trips sample_stations sample_maintenance init)
  = sample_system /\
  sample_system <> sample_cleaned /\
  (exists s, fst (run TotalTripsSummary sample_system) = OK s
             /\ total_trips s = 5%nat) /\
  ~ not_loaded_error (fst (run TotalTripsSummary sample_system)).
Proof.
  split; [reflexivity | split; [|split]].
  - vm_compute. discriminate.
  - eexists. split; [vm_compute; reflexivity | reflexivity].
  - intros [msg H]. vm_compute in H. discriminate.
Qed.

Lemma queries_guarded_read_only_witness :
  not_loaded_error (fst (run (TopStartStations 2) init)) /\
  ~ not_loaded_error (fst (run (TopStartStations 2) sample_system)).
Proof.
  split.
  - apply (proj1 (proj2 (queries_guarded_read_only (TopStartStations 2) init))).
    reflexivity.
  - apply (proj2 (proj2 (proj2 (queries_guarded_read_only
                                  (TopStartStations 2) sample_system)))).
    repeat split; discriminate.
Defined.




End AnalyticsRuns.
